(** * WeatherDataGraphs: the chart formatter and the interaction state

    A shallow embedding of [src/WeatherDataGraphs.jsx]: the three formatting
    functions ([formatTimestamp], [formatTimestamps], [formatData]) over a
    small universe of JavaScript values, and the component's hooks, handlers
    and render output as explicit state passing. *)

From Stdlib Require Import ZArith List String Ascii Bool Lia QArith.
From Stdlib Require Import Numbers.DecimalString.
Import ListNotations.

Local Open Scope string_scope.
Local Open Scope Z_scope.

Set Warnings "-register-all".

(* ================================================================= *)
(** ** JavaScript values *)

(** Numbers: NaN, the two infinities, and [Finite z] for the double of the
    integer [z], within the range where doubles count exactly (up to 2^53 in
    magnitude).  The component only ever tests numbers for truthiness, turns
    them into dates, or prints calendar fields. *)
Inductive number :=
| NaN
| Infinity (negative : bool)
| Finite (z : Z).

(** Plain data as a host passes it in props: primitives, arrays and records
    of data properties (own string keys, first binding wins).  No property
    value is a function, so a record that has its own [toString] property
    cannot be converted to a string.  A string is its sequence of UTF-16
    code units, one [ascii] each (units below 256). *)
Inductive value :=
| Undefined
| Null
| Bool (b : bool)
| Num (n : number)
| Str (s : string)
| Arr (elems : list value)
| Obj (fields : list (string * value)).

Inductive error :=
| TypeError (msg : string).

Inductive completion (A : Type) :=
| Normal (a : A)
| Throw (e : error).
Arguments Normal {A} a.
Arguments Throw {A} e.

Definition andThen {A B} (r : completion A) (k : A -> completion B) : completion B :=
  match r with
  | Normal a => k a
  | Throw e => Throw e
  end.

(** Left to right over a list, stopping at the first throw. *)
Definition mapThrough {A B} (f : A -> completion B) : list A -> completion (list B) :=
  fix each (l : list A) : completion (list B) :=
    match l with
    | [] => Normal []
    | a :: rest =>
        andThen (f a) (fun b =>
        andThen (each rest) (fun bs => Normal (b :: bs)))
    end.

(** What the engine and the machine decide: how a string parses as a date
    ([None] when it does not: the time value is NaN), the offset of local
    time from UTC at a given instant, in milliseconds, and, left open here,
    the exponent form in which an integer of magnitude 10^21 or more
    prints. *)
Record Host := {
  DateParse : string -> option Z;
  LocalTZA : Z -> Z;
  ExponentForm : Z -> string
}.

(** [Array.isArray] *)
Definition isArray (v : value) : bool :=
  match v with
  | Arr _ => true
  | _ => false
  end.

(** ToBoolean: what [!x], [x && y], [x || y] and [c ? a : b] test. *)
Definition ToBoolean (v : value) : bool :=
  match v with
  | Undefined | Null => false
  | Bool b => b
  | Num NaN => false
  | Num (Infinity _) => true
  | Num (Finite z) => negb (z =? 0)
  | Str s => negb (String.eqb s "")
  | Arr _ | Obj _ => true
  end.

(** [a || b] *)
Definition js_or (a b : value) : value :=
  if ToBoolean a then a else b.

(** Decimal numeral of an integer. *)
Definition Z_to_string (z : Z) : string :=
  NilZero.string_of_int (Z.to_int z).

(** Number::toString, radix 10: an integer below 10^21 in magnitude prints
    as its decimal numeral. *)
Definition NumberToString (host : Host) (n : number) : string :=
  match n with
  | NaN => "NaN"
  | Infinity false => "Infinity"
  | Infinity true => "-Infinity"
  | Finite z =>
      if Z.abs z <? 10 ^ 21 then Z_to_string z else ExponentForm host z
  end.

Fixpoint join (sep : string) (parts : list string) : string :=
  match parts with
  | [] => ""
  | [p] => p
  | p :: rest => p ++ sep ++ join sep rest
  end.

(** Whether a record has the own property [k]. *)
Definition hasOwn (k : string) (fields : list (string * value)) : bool :=
  existsb (fun kv => String.eqb k (fst kv)) fields.

(** ToString, as used by [String(x)] and by template literals.  An array
    prints through [Array.prototype.join], which renders [undefined] and
    [null] elements as the empty string and converts the others in order.  A
    record converts through [Object.prototype.toString], unless it has a
    [toString] of its own: that one is data, not callable, [valueOf] does
    not yield a primitive either, and the conversion throws. *)
Fixpoint ToString (host : Host) (v : value) : completion string :=
  match v with
  | Undefined => Normal "undefined"
  | Null => Normal "null"
  | Bool true => Normal "true"
  | Bool false => Normal "false"
  | Num n => Normal (NumberToString host n)
  | Str s => Normal s
  | Arr elems =>
      andThen (mapThrough (fun e =>
                             match e with
                             | Undefined | Null => Normal ""
                             | _ => ToString host e
                             end) elems)
              (fun parts => Normal (join "," parts))
  | Obj fields =>
      if hasOwn "toString" fields
      then Throw (TypeError "Cannot convert object to primitive value")
      else Normal "[object Object]"
  end.

(** Whether the conversion to a string returns: it does unless the value
    is a record with a [toString] property of its own, or an array that
    holds, other than [undefined] and [null], an element on which it does
    not. *)
Fixpoint convertible (v : value) : bool :=
  match v with
  | Arr elems =>
      forallb (fun e =>
                 match e with
                 | Undefined | Null => true
                 | _ => convertible e
                 end) elems
  | Obj fields => negb (hasOwn "toString" fields)
  | _ => true
  end.

Definition returns {A} (r : completion A) : bool :=
  match r with
  | Normal _ => true
  | Throw _ => false
  end.

(** Property keys: an array index, or a name that is not an index.  Of the
    names, the component reads [length], [borderColor] and
    [backgroundColor]; inherited methods are not values of this universe. *)
Inductive propertyKey :=
| Index (i : nat)
| Name (s : string).

Definition key_string (k : propertyKey) : string :=
  match k with
  | Index i => Z_to_string (Z.of_nat i)
  | Name s => s
  end.

Fixpoint lookup (k : string) (fields : list (string * value)) : value :=
  match fields with
  | [] => Undefined
  | (k', v) :: rest => if String.eqb k k' then v else lookup k rest
  end.

(** [base[k]] / [base.k]: reading a property of [undefined] or [null]
    throws; a missing property reads as [undefined]. *)
Definition Get (base : value) (k : propertyKey) : completion value :=
  match base with
  | Undefined => Throw (TypeError "Cannot read properties of undefined")
  | Null => Throw (TypeError "Cannot read properties of null")
  | Bool _ | Num _ => Normal Undefined
  | Str s =>
      match k with
      | Index i =>
          match String.get i s with
          | Some c => Normal (Str (String c ""))
          | None => Normal Undefined
          end
      | Name n =>
          if String.eqb n "length"
          then Normal (Num (Finite (Z.of_nat (String.length s))))
          else Normal Undefined
      end
  | Arr elems =>
      match k with
      | Index i => Normal (nth i elems Undefined)
      | Name n =>
          if String.eqb n "length"
          then Normal (Num (Finite (Z.of_nat (List.length elems))))
          else Normal Undefined
      end
  | Obj fields => Normal (lookup (key_string k) fields)
  end.

(** [a % b] on numbers: the remainder takes the sign of the dividend. *)
Definition js_rem (a b : number) : number :=
  match a, b with
  | Finite x, Finite y => if y =? 0 then NaN else Finite (Z.rem x y)
  | Finite x, Infinity _ => Finite x
  | _, _ => NaN
  end.

(** A number used as a property key. *)
Definition to_key (host : Host) (n : number) : propertyKey :=
  match n with
  | Finite z =>
      if 0 <=? z then Index (Z.to_nat z) else Name (NumberToString host n)
  | _ => Name (NumberToString host n)
  end.

(** [String.prototype.padStart] *)
Fixpoint fill_to (n : nat) (filler rest : string) : string :=
  match n with
  | O => ""
  | S n' =>
      match rest with
      | String c rest' => String c (fill_to n' filler rest')
      | EmptyString =>
          match filler with
          | String c rest' => String c (fill_to n' filler rest')
          | EmptyString => ""
          end
      end
  end.

Definition padStart (s : string) (targetLength : nat) (padString : string) : string :=
  if (targetLength <=? String.length s)%nat then s
  else fill_to (targetLength - String.length s) padString padString ++ s.

(* ================================================================= *)
(** ** Effects of the formatter

    [formatData] can write one diagnostic to the console, and a property read
    can throw: a computation takes the console and returns a completion and
    the console after it. *)

Record logEntry := {
  log_message : string;
  log_detail : list (string * value)
}.

Definition console := list logEntry.

Definition M (A : Type) : Type := console -> completion A * console.

Definition ret {A} (a : A) : M A := fun c => (Normal a, c).

Definition bind {A B} (m : M A) (k : A -> M B) : M B :=
  fun c =>
    match m c with
    | (Normal a, c') => k a c'
    | (Throw e, c') => (Throw e, c')
    end.

Definition lift {A} (r : completion A) : M A := fun c => (r, c).

Definition console_error (msg : string) (detail : list (string * value)) : M unit :=
  fun c => (Normal tt, (c ++ [{| log_message := msg; log_detail := detail |}])%list).

Notation "x <- m ;; k" := (bind m (fun x => k))
  (at level 61, m at next level, right associativity).

(** [Array.prototype.map]: the callback sees each element and its index, in
    order; a throw in the callback ends the traversal. *)
Fixpoint map_from {B} (f : value -> nat -> M B) (elems : list value) (index : nat)
  : M (list B) :=
  match elems with
  | [] => ret []
  | e :: rest =>
      b <- f e index ;;
      bs <- map_from f rest (S index) ;;
      ret (b :: bs)
  end.

Definition array_map {B} (arr : value) (f : value -> nat -> M B) : M (list B) :=
  match arr with
  | Arr elems => map_from f elems 0
  | Undefined | Null => lift (Throw (TypeError "Cannot read properties of undefined"))
  | _ => lift (Throw (TypeError "map is not a function"))
  end.

(* ================================================================= *)
(** ** Dates

    A [Date] object is its time value: milliseconds since the epoch, or
    [None] for the invalid date (time value NaN).  The calendar arithmetic is
    that of the language definition (Day, YearFromTime, MonthFromTime, ...). *)

Definition date := option Z.

Definition msPerMinute : Z := 60000.
Definition msPerHour : Z := 3600000.
Definition msPerDay : Z := 86400000.
Definition maxTime : Z := 8640000000000000.

(** TimeClip on an integral time. *)
Definition TimeClip (t : Z) : date :=
  if Z.abs t <=? maxTime then Some t else None.

Definition Day (t : Z) : Z := t / msPerDay.

Definition isLeapYear (y : Z) : bool :=
  if negb (y mod 4 =? 0) then false
  else if negb (y mod 100 =? 0) then true
  else (y mod 400 =? 0).

Definition DaysInYear (y : Z) : Z :=
  if isLeapYear y then 366 else 365.

Definition DayFromYear (y : Z) : Z :=
  365 * (y - 1970) + (y - 1969) / 4 - (y - 1901) / 100 + (y - 1601) / 400.

(** The year [y] with [DayFromYear y <= Day t < DayFromYear (y + 1)]: a
    first guess from the mean year length, off by at most one. *)
Definition YearFromDay (d : Z) : Z :=
  let guess := 1970 + (400 * d) / 146097 in
  if d <? DayFromYear guess then guess - 1
  else if DayFromYear (guess + 1) <=? d then guess + 1
  else guess.

Definition YearFromTime (t : Z) : Z := YearFromDay (Day t).

Definition InLeapYear (t : Z) : Z :=
  if isLeapYear (YearFromTime t) then 1 else 0.

Definition DayWithinYear (t : Z) : Z :=
  Day t - DayFromYear (YearFromTime t).

Definition MonthFromTime (t : Z) : Z :=
  let d := DayWithinYear t in
  let leap := InLeapYear t in
  if d <? 31 then 0
  else if d <? 59 + leap then 1
  else if d <? 90 + leap then 2
  else if d <? 120 + leap then 3
  else if d <? 151 + leap then 4
  else if d <? 181 + leap then 5
  else if d <? 212 + leap then 6
  else if d <? 243 + leap then 7
  else if d <? 273 + leap then 8
  else if d <? 304 + leap then 9
  else if d <? 334 + leap then 10
  else 11.

Definition DateFromTime (t : Z) : Z :=
  let d := DayWithinYear t in
  let leap := InLeapYear t in
  match MonthFromTime t with
  | 0 => d + 1
  | 1 => d - 30
  | 2 => d - 58 - leap
  | 3 => d - 89 - leap
  | 4 => d - 119 - leap
  | 5 => d - 150 - leap
  | 6 => d - 180 - leap
  | 7 => d - 211 - leap
  | 8 => d - 242 - leap
  | 9 => d - 272 - leap
  | 10 => d - 303 - leap
  | _ => d - 333 - leap
  end.

Definition HourFromTime (t : Z) : Z := (t / msPerHour) mod 24.
Definition MinFromTime (t : Z) : Z := (t / msPerMinute) mod 60.

Section WithHost.

Variable host : Host.

Definition LocalTime (t : Z) : Z := t + LocalTZA host t.

(** The date a string denotes. *)
Definition parsedDate (s : string) : date :=
  match DateParse host s with
  | Some t => TimeClip t
  | None => None
  end.

(** [new Date(v)] for one argument: a string is parsed, any other primitive
    is converted to a number, an object first to its primitive, which for
    arrays and records is their string; that conversion can throw. *)
Definition NewDate (v : value) : completion date :=
  match v with
  | Undefined => Normal None
  | Null => Normal (TimeClip 0)
  | Bool b => Normal (TimeClip (if b then 1 else 0))
  | Num (Finite z) => Normal (TimeClip z)
  | Num _ => Normal None
  | Str s => Normal (parsedDate s)
  | Arr _ | Obj _ => andThen (ToString host v) (fun s => Normal (parsedDate s))
  end.

Definition local_field (f : Z -> Z) (d : date) : number :=
  match d with
  | Some t => Finite (f (LocalTime t))
  | None => NaN
  end.

Definition getMonth (d : date) : number := local_field MonthFromTime d.
Definition getDate (d : date) : number := local_field DateFromTime d.
Definition getHours (d : date) : number := local_field HourFromTime d.
Definition getMinutes (d : date) : number := local_field MinFromTime d.

(** [n + 1] on a number *)
Definition succ (n : number) : number :=
  match n with
  | Finite z => Finite (z + 1)
  | other => other
  end.

(* ================================================================= *)
(** ** The formatter *)

Definition formatTimestamp (isoString : value) : completion string :=
  if negb (ToBoolean isoString) then Normal "Invalid Timestamp"
  else
    andThen (NewDate isoString) (fun date =>
    let month := padStart (NumberToString host (succ (getMonth date))) 2 "0" in
    let day := padStart (NumberToString host (getDate date)) 2 "0" in
    let hours := padStart (NumberToString host (getHours date)) 2 "0" in
    let minutes := padStart (NumberToString host (getMinutes date)) 2 "0" in
    Normal (month ++ "-" ++ day ++ " " ++ hours ++ ":" ++ minutes)).

Definition formatTimestamps (timestamps : value) : completion (list string) :=
  match timestamps with
  | Arr elems => mapThrough (fun timestamp => formatTimestamp timestamp) elems
  | _ => Normal []
  end.

Record dataset := {
  label : value;
  data : value;
  borderColor : value;
  backgroundColor : value;
  fill : bool;
  tension : Q
}.

Record chartData := {
  labels : list string;
  datasets : list dataset
}.

Definition defaultColors : value :=
  Arr [ Obj [("borderColor", Str "rgb(255, 206, 86)");
             ("backgroundColor", Str "rgba(255, 206, 86, 0.2)")];
        Obj [("borderColor", Str "rgb(54, 162, 235)");
             ("backgroundColor", Str "rgba(54, 162, 235, 0.2)")];
        Obj [("borderColor", Str "rgb(255, 99, 132)");
             ("backgroundColor", Str "rgba(255, 99, 132, 0.2)")];
        Obj [("borderColor", Str "rgb(75, 192, 192)");
             ("backgroundColor", Str "rgba(75, 192, 192, 0.2)")] ].

(** [colors && colors[index]] *)
Definition colorAt (colors : value) (index : nat) : M value :=
  if ToBoolean colors then lift (Get colors (Index index)) else ret colors.

(** The color record built from a given color: its own properties, or the
    color itself as border and, with an alpha suffix, as background. *)
Definition givenColor (colors : value) (index : nat) : M value :=
  border <- (c <- lift (Get colors (Index index)) ;;
             b <- lift (Get c (Name "borderColor")) ;;
             if ToBoolean b then ret b else lift (Get colors (Index index))) ;;
  background <- (c <- lift (Get colors (Index index)) ;;
                 g <- lift (Get c (Name "backgroundColor")) ;;
                 if ToBoolean g then ret g
                 else (c' <- lift (Get colors (Index index)) ;;
                       text <- lift (ToString host c') ;;
                       ret (Str (text ++ "4D")))) ;;
  ret (Obj [("borderColor", border); ("backgroundColor", background)]).

(** [defaultColors[index % defaultColors.length]] *)
Definition fallbackColor (index : nat) : M value :=
  len <- lift (Get defaultColors (Name "length")) ;;
  match len with
  | Num n =>
      lift (Get defaultColors (to_key host (js_rem (Finite (Z.of_nat index)) n)))
  | _ => ret Undefined
  end.

(** The [color] constant of the [map] callback. *)
Definition datasetColor (colors : value) (index : nat) : M value :=
  provided <- colorAt colors index ;;
  if ToBoolean provided then givenColor colors index else fallbackColor index.

Definition makeDataset (colors dataArray : value) (type : value) (index : nat)
  : M dataset :=
  color <- datasetColor colors index ;;
  series <- lift (Get dataArray (Index index)) ;;
  series' <- (if isArray series then lift (Get dataArray (Index index)) else ret (Arr [])) ;;
  border <- lift (Get color (Name "borderColor")) ;;
  background <- lift (Get color (Name "backgroundColor")) ;;
  ret {| label := type;
         data := series';
         borderColor := border;
         backgroundColor := background;
         fill := false;
         tension := 0.4%Q |}.

Definition formatData (types timestamps dataArray colors : value) : M chartData :=
  if negb (isArray types) || negb (isArray timestamps) || negb (isArray dataArray)
  then
    _ <- console_error
           "Invalid input: types, timestamps, and dataArray must be arrays"
           [("types", types); ("timestamps", timestamps); ("dataArray", dataArray)] ;;
    ret {| labels := []; datasets := [] |}
  else
    datasets <- array_map types (makeDataset colors dataArray) ;;
    labels <- lift (formatTimestamps timestamps) ;;
    ret {| labels := labels; datasets := datasets |}.

End WithHost.

(* ================================================================= *)
(** ** A reference host

    An engine that reads exactly the UTC date-time form
    [YYYY-MM-DDTHH:mm:ssZ], on a machine whose local zone is UTC.  It serves
    to run the formatter on concrete timestamps; no run below prints a
    number of magnitude 10^21 or more, and this host prints them as plain
    numerals. *)

Definition digit (c : ascii) : option Z :=
  let n := Z.of_nat (nat_of_ascii c) in
  if (48 <=? n) && (n <=? 57) then Some (n - 48) else None.

Fixpoint numeral (cs : list ascii) (acc : Z) : option Z :=
  match cs with
  | [] => Some acc
  | c :: rest =>
      match digit c with
      | Some d => numeral rest (10 * acc + d)
      | None => None
      end
  end.

Definition daysBeforeMonth (leap : bool) (m : Z) : Z :=
  let l := if leap then 1 else 0 in
  match m with
  | 1 => 0
  | 2 => 31
  | 3 => 59 + l
  | 4 => 90 + l
  | 5 => 120 + l
  | 6 => 151 + l
  | 7 => 181 + l
  | 8 => 212 + l
  | 9 => 243 + l
  | 10 => 273 + l
  | 11 => 304 + l
  | _ => 334 + l
  end.

Definition utcTime (y mo d h mi s : Z) : option Z :=
  let leap := isLeapYear y in
  let monthLength := daysBeforeMonth leap (mo + 1) - daysBeforeMonth leap mo in
  if (1 <=? mo) && (mo <=? 12) && (1 <=? d)
     && (d <=? (if mo =? 12 then 31 else monthLength))
     && (h <=? 23) && (mi <=? 59) && (s <=? 59)
  then Some ((DayFromYear y + daysBeforeMonth leap mo + d - 1) * msPerDay
             + h * msPerHour + mi * msPerMinute + s * 1000)
  else None.

Definition parseUtc (s : string) : option Z :=
  match list_ascii_of_string s with
  | [y1; y2; y3; y4; "-"; m1; m2; "-"; d1; d2; "T";
     h1; h2; ":"; n1; n2; ":"; s1; s2; "Z"]%char =>
      match numeral [y1; y2; y3; y4] 0, numeral [m1; m2] 0, numeral [d1; d2] 0,
            numeral [h1; h2] 0, numeral [n1; n2] 0, numeral [s1; s2] 0 with
      | Some y, Some mo, Some d, Some h, Some mi, Some sec => utcTime y mo d h mi sec
      | _, _, _, _, _, _ => None
      end
  | _ => None
  end.

Definition utcHost : Host :=
  {| DateParse := parseUtc; LocalTZA := fun _ => 0; ExponentForm := Z_to_string |}.

(* ================================================================= *)
(** ** The component

    One mounted [WeatherDataGraphs]: its props, the values of its [useState]
    hooks, the handlers a render creates (closed over that render's props and
    state) and what the render returns.  A handler is the sequence of calls
    it makes: hook setters and the host's [filterChange]. *)

Record props := {
  p_types : value;
  p_time : value;
  p_data : value;
  p_colors : value;
  p_timeline : value;
  p_startDate : value;
  p_endDate : value;
  p_leftLoad : value
}.

(** A date held in state: the host's prop as given, or a [Date] the
    component built. *)
Inductive dateSlot :=
| FromProps (v : value)
| DateObject (d : date).

Record state := {
  showStartDatePicker : bool;
  showEndDatePicker : bool;
  loading : bool;
  selectedFilter : string;
  selectedFilterButton : string;
  dataSize : nat;
  selectedStartDate : dateSlot;
  selectedEndDate : dateSlot
}.

Inductive effect :=
| setLoading (b : bool)
| setSelectedFilter (f : string)
| setSelectedFilterButton (k : string)
| setDataSize (n : nat)
| setSelectedStartDate (d : date)
| setSelectedEndDate (d : date)
| filterChange (granularity : string).

(** [props.startDate || today] *)
Definition initialDate (given : value) (today : Z) : dateSlot :=
  if ToBoolean given then FromProps given else DateObject (Some today).

Definition initialState (p : props) (today : Z) : state :=
  {| showStartDatePicker := false;
     showEndDatePicker := false;
     loading := false;
     selectedFilter := "Range";
     selectedFilterButton := "oneD";
     dataSize := 0;
     selectedStartDate := initialDate (p_startDate p) today;
     selectedEndDate := initialDate (p_endDate p) today |}.

(** The state after a queued setter takes effect. *)
Definition apply_setter (st : state) (e : effect) : state :=
  match e with
  | setLoading b =>
      {| showStartDatePicker := showStartDatePicker st;
         showEndDatePicker := showEndDatePicker st;
         loading := b;
         selectedFilter := selectedFilter st;
         selectedFilterButton := selectedFilterButton st;
         dataSize := dataSize st;
         selectedStartDate := selectedStartDate st;
         selectedEndDate := selectedEndDate st |}
  | setSelectedFilter f =>
      {| showStartDatePicker := showStartDatePicker st;
         showEndDatePicker := showEndDatePicker st;
         loading := loading st;
         selectedFilter := f;
         selectedFilterButton := selectedFilterButton st;
         dataSize := dataSize st;
         selectedStartDate := selectedStartDate st;
         selectedEndDate := selectedEndDate st |}
  | setSelectedFilterButton k =>
      {| showStartDatePicker := showStartDatePicker st;
         showEndDatePicker := showEndDatePicker st;
         loading := loading st;
         selectedFilter := selectedFilter st;
         selectedFilterButton := k;
         dataSize := dataSize st;
         selectedStartDate := selectedStartDate st;
         selectedEndDate := selectedEndDate st |}
  | setDataSize n =>
      {| showStartDatePicker := showStartDatePicker st;
         showEndDatePicker := showEndDatePicker st;
         loading := loading st;
         selectedFilter := selectedFilter st;
         selectedFilterButton := selectedFilterButton st;
         dataSize := n;
         selectedStartDate := selectedStartDate st;
         selectedEndDate := selectedEndDate st |}
  | setSelectedStartDate d =>
      {| showStartDatePicker := showStartDatePicker st;
         showEndDatePicker := showEndDatePicker st;
         loading := loading st;
         selectedFilter := selectedFilter st;
         selectedFilterButton := selectedFilterButton st;
         dataSize := dataSize st;
         selectedStartDate := DateObject d;
         selectedEndDate := selectedEndDate st |}
  | setSelectedEndDate d =>
      {| showStartDatePicker := showStartDatePicker st;
         showEndDatePicker := showEndDatePicker st;
         loading := loading st;
         selectedFilter := selectedFilter st;
         selectedFilterButton := selectedFilterButton st;
         dataSize := dataSize st;
         selectedStartDate := selectedStartDate st;
         selectedEndDate := DateObject d |}
  | filterChange _ => st
  end.

(** Running a handler: the setters apply in call order, and the calls to
    the host's [filterChange] are collected in call order. *)
Fixpoint run (st : state) (calls : list effect) : state * list string :=
  match calls with
  | [] => (st, [])
  | filterChange g :: rest =>
      let (st', out) := run st rest in (st', g :: out)
  | e :: rest => run (apply_setter st e) rest
  end.

Record filterButton := {
  key : string;
  buttonLabel : string;
  filter : string;
  action : Z -> list effect
}.

Record buttonView := {
  view_key : string;
  activeFilter : bool;
  disabled : bool;
  view_label : string
}.

Record view := {
  buttons : list buttonView;
  loadingOverlay : bool;
  blur : bool;
  innerLoadingOverlay : bool;
  chartTitle : string;
  chart : chartData
}.

Inductive event :=
| Click (button : string) (now : Z)
| AnimationComplete (labelCount : nat).

Section Component.

Variable host : Host.

(** [useTranslation]'s [t]. *)
Variable t : string -> string.

(** [options.animation.onComplete], given the chart's label count. *)
Definition onComplete (st : state) (labelCount : nat) : list effect :=
  if negb (labelCount =? dataSize st)%nat
  then [setDataSize labelCount; setLoading false]
  else [].

(** [options.plugins.title.text] *)
Definition titleText (p : props) : completion string :=
  andThen (ToString host (p_timeline p)) (fun timeline =>
  Normal (String (ascii_of_nat 9) (t "chartTitles.dataPer" ++ timeline))).

(** The clock reading [now] is what [new Date()] returns inside an
    action. *)
Definition filterButtons (st : state) : list filterButton :=
  [ {| key := "oneD";
       buttonLabel := t "filterTooltips.oneD";
       filter := "Hourly";
       action := fun now =>
         if String.eqb (selectedFilterButton st) "oneD" then []
         else
           let currentDate : date := Some now in
           let start := TimeClip (now - 24 * 60 * 60 * 1000) in
           let end_ := currentDate in
           [ setSelectedFilterButton "oneD";
             setSelectedStartDate start;
             setSelectedEndDate end_;
             setSelectedFilter "Hourly";
             filterChange "Hourly";
             setLoading true ] |};
    {| key := "oneW";
       buttonLabel := t "filterTooltips.oneW";
       filter := "Daily";
       action := fun now =>
         if String.eqb (selectedFilterButton st) "oneW" then []
         else
           let currentDate : date := Some now in
           let start := TimeClip (now - 7 * 24 * 60 * 60 * 1000) in
           let end_ := currentDate in
           [ setSelectedFilterButton "oneW";
             setSelectedStartDate start;
             setSelectedEndDate end_;
             setSelectedFilter "Daily";
             filterChange "Daily";
             setLoading true ] |};
    {| key := "oneM";
       buttonLabel := t "filterTooltips.oneM";
       filter := "Monthly";
       action := fun now =>
         if String.eqb (selectedFilterButton st) "oneM" then []
         else
           let currentDate : date := Some now in
           let start := TimeClip (now - 30 * 24 * 60 * 60 * 1000) in
           let end_ := currentDate in
           [ setSelectedFilterButton "oneM";
             setSelectedStartDate start;
             setSelectedEndDate end_;
             setSelectedFilter "Monthly";
             filterChange "Monthly";
             setLoading true ] |} ].

(** [onClick] of the button with the given key. *)
Definition onClick (st : state) (button : string) (now : Z) : list effect :=
  match List.find (fun b => String.eqb (key b) button) (filterButtons st) with
  | Some b => action b now
  | None => []
  end.

Definition handle (st : state) (ev : event) : list effect :=
  match ev with
  | Click button now => onClick st button now
  | AnimationComplete labelCount => onComplete st labelCount
  end.

(** One event of the mounted component: the next state and the labels
    handed to the host's [filterChange]. *)
Definition step (st : state) (ev : event) : state * list string :=
  run st (handle st ev).

(** The strip of buttons: [filterButtons.map(...)] in the returned tree. *)
Definition renderButtons (st : state) : list buttonView :=
  List.map (fun b =>
              {| view_key := key b;
                 activeFilter := String.eqb (selectedFilterButton st) (key b);
                 disabled := String.eqb (selectedFilterButton st) (key b);
                 view_label := buttonLabel b |})
           (filterButtons st).

(** The render: the chart receives [formatData] of the props and the title
    built in [options]; each of the two overlays and the blur class tests
    [loading || props.leftLoad]. *)
Definition render (p : props) (st : state) : M view :=
  data <- formatData host (p_types p) (p_time p) (p_data p) (p_colors p) ;;
  title <- lift (titleText p) ;;
  ret {| buttons := renderButtons st;
         loadingOverlay := ToBoolean (js_or (Bool (loading st)) (p_leftLoad p));
         blur := ToBoolean (js_or (Bool (loading st)) (p_leftLoad p));
         innerLoadingOverlay := ToBoolean (js_or (Bool (loading st)) (p_leftLoad p));
         chartTitle := title;
         chart := data |}.

End Component.

(* ================================================================= *)
(** ** Vocabulary of the statements *)

(** The character of a decimal digit, and the two-digit numeral of a number
    below one hundred. *)
Definition digitChar (d : Z) : ascii := ascii_of_nat (48 + Z.to_nat d).

Definition twoDigits (z : Z) : string :=
  String (digitChar (z / 10)) (String (digitChar (z mod 10)) "").



(** A string the host parses to a time a [Date] can hold. *)
Definition validTimestamp (host : Host) (s : string) (tv : Z) : Prop :=
  s <> "" /\ DateParse host s = Some tv /\ Z.abs tv <= maxTime.

(** The test [colors && colors[index]] of the [map] callback. *)
Definition colorProvided (colors : value) (index : nat) : bool :=
  ToBoolean colors &&
  match Get colors (Index index) with
  | Normal c => ToBoolean c
  | Throw _ => false
  end.

(** The value array of series [index]: [dataArray[index]] when that is an
    array, the empty array otherwise. *)
Definition seriesAt (dataArray : list value) (index : nat) : value :=
  match nth_error dataArray index with
  | Some (Arr samples) => Arr samples
  | _ => Arr []
  end.

(** What dataset [index] carries for the series named [type]. *)
Definition datasetOf (colors : value) (dataArray : list value) (type : value)
    (index : nat) (d : dataset) : Prop :=
  label d = type /\
  data d = seriesAt dataArray index /\
  fill d = false /\
  tension d = 0.4%Q /\
  (colorProvided colors index = false ->
   Get defaultColors (Index (index mod 4)) =
     Normal (Obj [("borderColor", borderColor d);
                  ("backgroundColor", backgroundColor d)])).

Definition emptyChart : chartData := {| labels := []; datasets := [] |}.

Definition invalidInputEntry (types timestamps dataArray : value) : logEntry :=
  {| log_message := "Invalid input: types, timestamps, and dataArray must be arrays";
     log_detail := [("types", types); ("timestamps", timestamps);
                    ("dataArray", dataArray)] |}.

(** The three quick filters: their keys, the length of their range in days
    and the label handed to the host. *)
Definition quickFilters : list string := ["oneD"; "oneW"; "oneM"].

Definition rangeDays (button : string) : Z :=
  if String.eqb button "oneD" then 1
  else if String.eqb button "oneW" then 7
  else 30.

Definition granularityOf (button : string) : string :=
  if String.eqb button "oneD" then "Hourly"
  else if String.eqb button "oneW" then "Daily"
  else "Monthly".

Definition with_leftLoad (flag : value) (p : props) : props :=
  {| p_types := p_types p;
     p_time := p_time p;
     p_data := p_data p;
     p_colors := p_colors p;
     p_timeline := p_timeline p;
     p_startDate := p_startDate p;
     p_endDate := p_endDate p;
     p_leftLoad := flag |}.

(** A freshly mounted component without props, and the identity
    translation, for concrete runs. *)
Definition noProps : props :=
  {| p_types := Undefined; p_time := Undefined; p_data := Undefined;
     p_colors := Undefined; p_timeline := Undefined; p_startDate := Undefined;
     p_endDate := Undefined; p_leftLoad := Undefined |}.

Definition idleState : state := initialState noProps 0.

Definition noTranslation (k : string) : string := k.

(** The inputs of the formatter's worked example. *)
Definition exampleTypes : value := Arr [Str "Temp"; Str "Humidity"].
Definition exampleTime : value := Arr [Str "2024-01-01T00:00:00Z"].
Definition exampleData : value :=
  Arr [Arr [Num (Finite 10)]; Arr [Num (Finite 50)]].

(* ================================================================= *)
(** ** The hover line plugin

    [verticalLinePlugin.afterDatasetsDraw]: what it reads from the chart and
    the calls it makes on the canvas context.  Every read comes before the
    first canvas call, so a run is either a throw or the list of calls. *)

Inductive canvasCall :=
| ctx_save
| ctx_beginPath
| ctx_moveTo (x y : value)
| ctx_lineTo (x y : value)
| ctx_lineWidth (w : value)
| ctx_strokeStyle (style : value)
| ctx_stroke
| ctx_restore.

(** The chart as the plugin sees it: the tooltip and the chart area are
    data; of [scales] only [x.getPixelForValue] is used, when the chart has
    an [x] scale. *)
Record chartInstance := {
  tooltip : value;
  chartArea : value;
  scales_x : option (value -> value)
}.

(** [base?.k] *)
Definition optionalGet (base : value) (k : propertyKey) : completion value :=
  match base with
  | Undefined | Null => Normal Undefined
  | _ => Get base k
  end.

Definition afterDatasetsDraw (chart : chartInstance) : completion (list canvasCall) :=
  andThen (Get (chartArea chart) (Name "left")) (fun left =>
  andThen (Get (chartArea chart) (Name "right")) (fun right =>
  andThen (Get (chartArea chart) (Name "top")) (fun top =>
  andThen (Get (chartArea chart) (Name "bottom")) (fun bottom =>
  andThen (optionalGet (tooltip chart) (Name "_active")) (fun active =>
  andThen (optionalGet active (Name "length")) (fun len =>
  if ToBoolean len then
    andThen (Get (tooltip chart) (Name "_active")) (fun points =>
    andThen (Get points (Index 0)) (fun activePoint =>
    match scales_x chart with
    | None => Throw (TypeError "Cannot read properties of undefined")
    | Some getPixelForValue =>
        andThen (Get activePoint (Name "index")) (fun index =>
        let xCoor := getPixelForValue index in
        Normal [ ctx_save;
                 ctx_beginPath;
                 ctx_moveTo xCoor top;
                 ctx_lineTo xCoor bottom;
                 ctx_lineWidth (Num (Finite 2));
                 ctx_strokeStyle (Str "rgba(255, 255, 255, 0.5)");
                 ctx_stroke;
                 ctx_restore ])
    end))
  else Normal [])))))).

(* ================================================================= *)
(** ** Runs of the component *)

(** A sequence of events, each handled by the render that follows the
    previous one; the host's [filterChange] labels are collected in order. *)
Fixpoint runEvents (t : string -> string) (st : state) (evs : list event)
  : state * list string :=
  match evs with
  | [] => (st, [])
  | ev :: rest =>
      let (st1, out1) := step t st ev in
      let (st2, out2) := runEvents t st1 rest in
      (st2, (out1 ++ out2)%list)
  end.

(** What holds of the hook state at every render. *)
Definition consistent (st : state) : Prop :=
  showStartDatePicker st = false /\
  showEndDatePicker st = false /\
  In (selectedFilterButton st) quickFilters /\
  (selectedFilter st = "Range" /\ selectedFilterButton st = "oneD" \/
   selectedFilter st = granularityOf (selectedFilterButton st)).

(** No two neighbours of the list are equal. *)
Fixpoint adjacentDistinct (l : list string) : bool :=
  match l with
  | a :: (b :: _) as rest => negb (String.eqb a b) && adjacentDistinct rest
  | _ => true
  end.

Definition isClick (ev : event) : bool :=
  match ev with
  | Click _ _ => true
  | AnimationComplete _ => false
  end.

(** The label count of the last completion signal of a run. *)
Fixpoint lastLabelCount (evs : list event) (recorded : nat) : nat :=
  match evs with
  | [] => recorded
  | AnimationComplete n :: rest => lastLabelCount rest n
  | Click _ _ :: rest => lastLabelCount rest recorded
  end.

(** The label of a truthy argument that denotes no date. *)
Definition invalidText : string := "NaN-NaN NaN:NaN".

(** The color record the [map] callback builds from a given color [ci]. *)
Definition borderOf (ci : value) : value :=
  match Get ci (Name "borderColor") with
  | Normal b => if ToBoolean b then b else ci
  | Throw _ => ci
  end.

Definition backgroundOf (host : Host) (ci : value) : completion value :=
  match Get ci (Name "backgroundColor") with
  | Normal g =>
      if ToBoolean g then Normal g
      else andThen (ToString host ci) (fun text => Normal (Str (text ++ "4D")))
  | Throw e => Throw e
  end.

(** The conversions a call of [formatData] on arrays goes through: that of
    each given color that lacks a truthy background of its own, and that of
    each timestamp.  [colorReady] says that series [index] needs no
    conversion or has a convertible color, [seriesReady] that the first
    [count] series do, [timeReady] that every timestamp is convertible. *)
Definition colorReady (colors : value) (index : nat) : bool :=
  negb (colorProvided colors index) ||
  match Get colors (Index index) with
  | Normal ci =>
      match Get ci (Name "backgroundColor") with
      | Normal g => ToBoolean g
      | Throw _ => false
      end || convertible ci
  | Throw _ => true
  end.

Definition seriesReady (colors : value) (count : nat) : bool :=
  forallb (colorReady colors) (seq 0 count).

Definition timeReady (timestamps : list value) : bool :=
  forallb convertible timestamps.

(** The same for the props of a render, with the title's [timeline]. *)
Definition chartReady (p : props) : bool :=
  match p_types p, p_time p, p_data p with
  | Arr types, Arr timestamps, Arr _ =>
      seriesReady (p_colors p) (List.length types) && timeReady timestamps
  | _, _, _ => true
  end.

Definition renderReady (p : props) : bool :=
  chartReady p && convertible (p_timeline p).



Definition isAscii (s : string) : bool :=
  forallb (fun ch => (nat_of_ascii ch <? 128)%nat) (list_ascii_of_string s).

(* ================================================================= *)
(** ** Proof steps *)

(** Evaluate the month table at a known month. *)
Ltac eval_tables :=
  repeat match goal with
         | |- context [daysBeforeMonth ?l ?m] =>
             let v := eval vm_compute in (daysBeforeMonth l m) in
             change (daysBeforeMonth l m) with v
         | H : context [daysBeforeMonth ?l ?m] |- _ =>
             let v := eval vm_compute in (daysBeforeMonth l m) in
             change (daysBeforeMonth l m) with v in H
         | H : context [Z.eqb ?a 12] |- _ =>
             let v := eval vm_compute in (Z.eqb a 12) in
             change (Z.eqb a 12) with v in H
         end.


(** Case analysis along the characters the reference host reads. *)
Ltac reduce_parse H := cbv beta iota delta [list_ascii_of_string] in H.
Ltac any_char s H :=
  destruct s as [| ?c s]; [reduce_parse H; discriminate H |].
Ltac this_char s H :=
  let c := fresh "c" in
  destruct s as [| c s]; [reduce_parse H; discriminate H |];
  destruct c as [[] [] [] [] [] [] [] []];
  try (reduce_parse H; discriminate H).

(* ================================================================= *)
(** ** Calendar arithmetic *)

Lemma isLeapYear_spec (y : Z) :
  isLeapYear y = true <-> (y mod 4 = 0 /\ (y mod 100 <> 0 \/ y mod 400 = 0)).
Proof.
  unfold isLeapYear.
  destruct (Z.eqb_spec (y mod 4) 0); simpl.
  - destruct (Z.eqb_spec (y mod 100) 0); simpl.
    + destruct (Z.eqb_spec (y mod 400) 0); intuition congruence.
    + intuition congruence.
  - intuition congruence.
Qed.

Lemma DayFromYear_next (y : Z) :
  DayFromYear (y + 1) = DayFromYear y + DaysInYear y.
Proof.
  unfold DaysInYear, isLeapYear, DayFromYear.
  destruct (Z.eqb_spec (y mod 4) 0); cbn [negb];
    [ destruct (Z.eqb_spec (y mod 100) 0); cbn [negb];
      [ destruct (Z.eqb_spec (y mod 400) 0) | ] | ];
    Z.div_mod_to_equations; lia.
Qed.

Lemma YearFromDay_spec (d : Z) :
  DayFromYear (YearFromDay d) <= d < DayFromYear (YearFromDay d + 1).
Proof.
  unfold YearFromDay.
  set (g := 1970 + 400 * d / 146097).
  assert (Hg : 146097 * (g - 1970) <= 400 * d < 146097 * (g - 1970) + 146097).
  { unfold g. Z.div_mod_to_equations. lia. }
  clearbody g.
  destruct (Z.ltb_spec d (DayFromYear g)) as [Hlt | Hge].
  - replace (g - 1 + 1) with g by lia.
    split; [| exact Hlt].
    unfold DayFromYear in *. Z.div_mod_to_equations. lia.
  - destruct (Z.leb_spec (DayFromYear (g + 1)) d) as [Hle | Hgt].
    + split; [exact Hle |].
      unfold DayFromYear in *. Z.div_mod_to_equations. lia.
    + lia.
Qed.

Lemma DayWithinYear_range (t : Z) :
  0 <= DayWithinYear t < DaysInYear (YearFromTime t).
Proof.
  unfold DayWithinYear, YearFromTime.
  pose proof (YearFromDay_spec (Day t)) as H.
  rewrite DayFromYear_next in H. lia.
Qed.

Lemma MonthFromTime_range (t : Z) : 0 <= MonthFromTime t <= 11.
Proof.
  unfold MonthFromTime.
  repeat match goal with
         | |- context [if ?b then _ else _] => destruct b
         end; lia.
Qed.

Lemma DateFromTime_range (t : Z) : 1 <= DateFromTime t <= 31.
Proof.
  pose proof (DayWithinYear_range t) as R.
  unfold DateFromTime, MonthFromTime, InLeapYear, DaysInYear in *.
  destruct (isLeapYear (YearFromTime t));
    repeat match goal with
           | |- context [if ?b then _ else _] =>
               match b with
               | Z.ltb ?x ?y => destruct (Z.ltb_spec x y)
               end
           end; lia.
Qed.

Lemma HourFromTime_range (t : Z) : 0 <= HourFromTime t <= 23.
Proof. unfold HourFromTime. Z.div_mod_to_equations. lia. Qed.

Lemma MinFromTime_range (t : Z) : 0 <= MinFromTime t <= 59.
Proof. unfold MinFromTime. Z.div_mod_to_equations. lia. Qed.

(* ================================================================= *)
(** ** Timestamps *)

Lemma NumberToString_small (host : Host) (z : Z) :
  Z.abs z < 10 ^ 21 -> NumberToString host (Finite z) = Z_to_string z.
Proof.
  intros R. unfold NumberToString.
  destruct (Z.ltb_spec (Z.abs z) (10 ^ 21)); [reflexivity | lia].
Qed.

Lemma padStart_two_digits (host : Host) (z : Z) :
  0 <= z <= 99 -> padStart (NumberToString host (Finite z)) 2 "0" = twoDigits z.
Proof.
  intros R.
  rewrite NumberToString_small by (change (10 ^ 21) with 1000000000000000000000; lia).
  assert (All : forallb (fun n =>
                  String.eqb (padStart (Z_to_string (Z.of_nat n)) 2 "0")
                             (twoDigits (Z.of_nat n)))
                (seq 0 100) = true) by (vm_compute; reflexivity).
  rewrite forallb_forall in All.
  specialize (All (Z.to_nat z)).
  rewrite Z2Nat.id in All by lia.
  apply String.eqb_eq, All, in_seq. lia.
Qed.




Lemma TimeClip_valid (tv : Z) : Z.abs tv <= maxTime -> TimeClip tv = Some tv.
Proof.
  intros R. unfold TimeClip.
  destruct (Z.leb_spec (Z.abs tv) maxTime); [reflexivity | lia].
Qed.

Lemma ToBoolean_nonempty (s : string) : s <> "" -> ToBoolean (Str s) = true.
Proof.
  intros N. simpl. destruct (String.eqb_spec s ""); [contradiction | reflexivity].
Qed.

(** A truthy argument that denotes a valid date formats as its local
    fields; one that denotes the invalid date, as the NaN text; and when the
    conversion of the argument throws, so does the formatting. *)
Lemma formatTimestamp_dated (host : Host) (v : value) (tv : Z) :
  ToBoolean v = true -> NewDate host v = Normal (Some tv) ->
  formatTimestamp host v =
    Normal (twoDigits (MonthFromTime (LocalTime host tv) + 1) ++ "-" ++
            twoDigits (DateFromTime (LocalTime host tv)) ++ " " ++
            twoDigits (HourFromTime (LocalTime host tv)) ++ ":" ++
            twoDigits (MinFromTime (LocalTime host tv))).
Proof.
  intros T D. unfold formatTimestamp. rewrite T, D. cbn [negb andThen].
  unfold getMonth, getDate, getHours, getMinutes, local_field, succ.
  pose proof (MonthFromTime_range (LocalTime host tv)).
  pose proof (DateFromTime_range (LocalTime host tv)).
  pose proof (HourFromTime_range (LocalTime host tv)).
  pose proof (MinFromTime_range (LocalTime host tv)).
  rewrite !padStart_two_digits by lia.
  reflexivity.
Qed.

Lemma formatTimestamp_undated (host : Host) (v : value) :
  ToBoolean v = true -> NewDate host v = Normal None ->
  formatTimestamp host v = Normal invalidText.
Proof.
  intros T D. unfold formatTimestamp. rewrite T, D. reflexivity.
Qed.


Lemma formatTimestamp_falsy (host : Host) (v : value) :
  ToBoolean v = false -> formatTimestamp host v = Normal "Invalid Timestamp".
Proof.
  intros F. unfold formatTimestamp. rewrite F. reflexivity.
Qed.


(** The formatted text of a string the host parses. *)
Lemma formatTimestamp_valid (host : Host) (s : string) (tv : Z) :
  validTimestamp host s tv ->
  formatTimestamp host (Str s) =
    Normal (twoDigits (MonthFromTime (LocalTime host tv) + 1) ++ "-" ++
            twoDigits (DateFromTime (LocalTime host tv)) ++ " " ++
            twoDigits (HourFromTime (LocalTime host tv)) ++ ":" ++
            twoDigits (MinFromTime (LocalTime host tv))).
Proof.
  intros (Hs & Hp & Hr).
  apply formatTimestamp_dated; [apply ToBoolean_nonempty, Hs |].
  cbn [NewDate]. unfold parsedDate. rewrite Hp, (TimeClip_valid tv Hr). reflexivity.
Qed.

(** The formatted text of a string the host does not parse. *)
Lemma formatTimestamp_unparsed (host : Host) (s : string) :
  s <> "" -> DateParse host s = None ->
  formatTimestamp host (Str s) = Normal "NaN-NaN NaN:NaN".
Proof.
  intros Hs Hp.
  apply (formatTimestamp_undated host (Str s)); [apply ToBoolean_nonempty, Hs |].
  cbn [NewDate]. unfold parsedDate. rewrite Hp. reflexivity.
Qed.

(** [mapThrough] returns the list of the results when every element's
    conversion returns, and throws when one of them throws. *)
Lemma mapThrough_returns {A B} (f : A -> completion B) (l : list A) :
  forallb (fun a => match f a with Normal _ => true | Throw _ => false end) l = true ->
  exists bs,
    mapThrough f l = Normal bs /\
    List.length bs = List.length l /\
    forall i a, nth_error l i = Some a ->
      exists b, nth_error bs i = Some b /\ f a = Normal b.
Proof.
  induction l as [| a rest IH]; intros R.
  - exists []. repeat split. intros [| i] x H; discriminate H.
  - cbn [forallb] in R. apply andb_true_iff in R. destruct R as [Ra Rr].
    destruct (f a) as [b |] eqn:Fa; [| discriminate Ra].
    destruct (IH Rr) as (bs & E & Len & Each).
    exists (b :: bs). cbn [mapThrough]. fold (mapThrough f).
    rewrite Fa. cbn [andThen]. rewrite E. cbn [andThen].
    split; [reflexivity |]. split; [simpl; congruence |].
    intros [| i] x H.
    + injection H as <-. exists b. split; [reflexivity | exact Fa].
    + apply (Each i x H).
Qed.

Lemma mapThrough_throws {A B} (f : A -> completion B) (l : list A) :
  forallb (fun a => match f a with Normal _ => true | Throw _ => false end) l = false ->
  exists e, mapThrough f l = Throw e.
Proof.
  induction l as [| a rest IH]; intros R.
  - discriminate R.
  - cbn [forallb] in R. cbn [mapThrough]. fold (mapThrough f).
    destruct (f a) as [b | e] eqn:Fa; cbn [andThen].
    + cbn [andb] in R. destruct (IH R) as [e E]. rewrite E. exists e. reflexivity.
    + exists e. reflexivity.
Qed.


(** The conversion to a string returns exactly on the convertible
    values, and so does [formatTimestamp]. *)
Lemma ToString_outcome (host : Host) :
  forall v, returns (ToString host v) = convertible v.
Proof.
  fix self 1. intros v.
  destruct v as [| | b | n | s | elems | fields]; try reflexivity.
  - destruct b; reflexivity.
  - cbn [ToString convertible].
    assert (E : returns (mapThrough (fun e =>
                           match e with
                           | Undefined | Null => Normal ""
                           | _ => ToString host e
                           end) elems) =
                forallb (fun e =>
                           match e with
                           | Undefined | Null => true
                           | _ => convertible e
                           end) elems).
    { induction elems as [| e rest IH]; [reflexivity |].
      cbn [mapThrough forallb].
      fold (mapThrough (fun e0 =>
                          match e0 with
                          | Undefined | Null => Normal ""
                          | _ => ToString host e0
                          end)).
      rewrite <- IH.
      assert (He : returns (match e with
                            | Undefined | Null => Normal ""
                            | _ => ToString host e
                            end) =
                   match e with
                   | Undefined | Null => true
                   | _ => convertible e
                   end).
      { pose proof (self e) as Se. destruct e; try reflexivity; exact Se. }
      rewrite <- He.
      destruct (match e with
                | Undefined | Null => Normal ""
                | _ => ToString host e
                end); cbn [andThen returns andb]; [| reflexivity].
      destruct (mapThrough _ rest); reflexivity. }
    rewrite <- E. destruct (mapThrough _ elems); reflexivity.
  - cbn [ToString convertible]. destruct (hasOwn "toString" fields); reflexivity.
Qed.

Lemma NewDate_outcome (host : Host) (v : value) :
  returns (NewDate host v) = convertible v.
Proof.
  destruct v as [| | b | [| neg | z] | s | elems | fields]; try reflexivity.
  - cbn [NewDate]. rewrite <- (ToString_outcome host (Arr elems)).
    destruct (ToString host (Arr elems)); reflexivity.
  - cbn [NewDate]. rewrite <- (ToString_outcome host (Obj fields)).
    destruct (ToString host (Obj fields)); reflexivity.
Qed.

Lemma formatTimestamp_outcome (host : Host) (v : value) :
  returns (formatTimestamp host v) = convertible v.
Proof.
  unfold formatTimestamp.
  destruct (ToBoolean v) eqn:T; cbn [negb].
  - rewrite <- (NewDate_outcome host v).
    destruct (NewDate host v); reflexivity.
  - destruct v as [| | b | n | s | elems | fields];
      try reflexivity; discriminate T.
Qed.



Lemma timeReady_outcomes (host : Host) (elems : list value) :
  forallb (fun a => match formatTimestamp host a with
                    | Normal _ => true
                    | Throw _ => false
                    end) elems = timeReady elems.
Proof.
  unfold timeReady. induction elems as [| v rest IH]; [reflexivity |].
  cbn [forallb]. rewrite IH. f_equal.
  apply (formatTimestamp_outcome host v).
Qed.

(** The labels of an array of timestamps. *)
Lemma formatTimestamps_returns (host : Host) (elems : list value) :
  timeReady elems = true ->
  exists ls,
    formatTimestamps host (Arr elems) = Normal ls /\
    List.length ls = List.length elems /\
    forall i timestamp, nth_error elems i = Some timestamp ->
      exists text, nth_error ls i = Some text /\
                   formatTimestamp host timestamp = Normal text.
Proof.
  intros R. rewrite <- (timeReady_outcomes host) in R.
  apply (mapThrough_returns (formatTimestamp host) elems R).
Qed.

Lemma formatTimestamps_throws (host : Host) (elems : list value) :
  timeReady elems = false ->
  exists e, formatTimestamps host (Arr elems) = Throw e.
Proof.
  intros R. rewrite <- (timeReady_outcomes host) in R.
  apply (mapThrough_throws (formatTimestamp host) elems R).
Qed.




(** C9: an absent timestamp ([null], [undefined]) formats as the sentinel,
    but a non-empty string that does not parse as a date does not: the code
    formats the fields of the invalid date, each of them NaN. *)
Theorem C9_formatTimestamp_unparsed_string (host : Host) (s : string) :
  s <> "" -> DateParse host s = None ->
  formatTimestamp host Null = Normal "Invalid Timestamp" /\
  formatTimestamp host Undefined = Normal "Invalid Timestamp" /\
  formatTimestamp host (Str s) = Normal "NaN-NaN NaN:NaN" /\
  formatTimestamp host (Str s) <> Normal "Invalid Timestamp".
Proof.
  intros Hs Hp.
  rewrite (formatTimestamp_unparsed host s Hs Hp).
  repeat split; try reflexivity. discriminate.
Qed.

Lemma C9_formatTimestamp_unparsed_string_witness :
  formatTimestamp utcHost (Str "not a date") = Normal "NaN-NaN NaN:NaN" /\
  formatTimestamp utcHost (Str "not a date") <> Normal "Invalid Timestamp".
Proof.
  apply (C9_formatTimestamp_unparsed_string utcHost "not a date").
  - discriminate.
  - reflexivity.
Defined.

(** C10: every falsy argument formats as the sentinel: the guard is
    [!isoString], so the empty string and the number 0 are caught with
    [null] and [undefined]. *)
Theorem C10_formatTimestamp_falsy (host : Host) :
  (forall v, ToBoolean v = false ->
     formatTimestamp host v = Normal "Invalid Timestamp") /\
  formatTimestamp host (Str "") = Normal "Invalid Timestamp" /\
  formatTimestamp host (Num (Finite 0)) = Normal "Invalid Timestamp" /\
  formatTimestamp host Null = Normal "Invalid Timestamp" /\
  formatTimestamp host Undefined = Normal "Invalid Timestamp".
Proof.
  split; [exact (formatTimestamp_falsy host) |].
  repeat split; apply formatTimestamp_falsy; reflexivity.
Qed.

Lemma C10_formatTimestamp_falsy_witness :
  formatTimestamp utcHost (Bool false) = Normal "Invalid Timestamp" /\
  formatTimestamp utcHost (Num NaN) = Normal "Invalid Timestamp".
Proof.
  split; apply (proj1 (C10_formatTimestamp_falsy utcHost)); reflexivity.
Defined.

(* ================================================================= *)
(** ** Chart data *)

Lemma Get_truthy (v : value) (k : propertyKey) :
  ToBoolean v = true -> exists r, Get v k = Normal r.
Proof.
  intros T. destruct v; try discriminate T; unfold Get.
  - eauto.
  - eauto.
  - destruct k as [i | n].
    + destruct (String.get i s); eauto.
    + destruct (String.eqb n "length"); eauto.
  - destruct k as [i | n].
    + eauto.
    + destruct (String.eqb n "length"); eauto.
  - eauto.
Qed.

Lemma default_key (host : Host) (index : nat) :
  to_key host (js_rem (Finite (Z.of_nat index)) (Finite 4)) = Index (index mod 4).
Proof.
  cbn [js_rem Z.eqb to_key].
  rewrite Z.rem_mod_nonneg by lia.
  pose proof (Z.mod_pos_bound (Z.of_nat index) 4 ltac:(lia)) as B.
  destruct (Z.leb_spec 0 (Z.of_nat index mod 4)) as [_ | Neg]; [| lia].
  f_equal. apply Nat2Z.inj.
  rewrite Z2Nat.id by lia. rewrite Nat2Z.inj_mod. reflexivity.
Qed.

Lemma default_entry (index : nat) :
  exists b g,
    Get defaultColors (Index (index mod 4)) =
      Normal (Obj [("borderColor", Str b); ("backgroundColor", Str g)]).
Proof.
  pose proof (Nat.mod_upper_bound index 4 ltac:(lia)) as B.
  destruct (index mod 4)%nat as [| [| [| [| n]]]]; cbn; eauto. lia.
Qed.

Lemma fallbackColor_returns (host : Host) (index : nat) (c : console) :
  exists b g,
    fallbackColor host index c =
      (Normal (Obj [("borderColor", Str b); ("backgroundColor", Str g)]), c) /\
    Get defaultColors (Index (index mod 4)) =
      Normal (Obj [("borderColor", Str b); ("backgroundColor", Str g)]).
Proof.
  destruct (default_entry index) as (b & g & E).
  exists b, g. split; [| exact E].
  unfold fallbackColor, bind, lift.
  change (Get defaultColors (Name "length")) with (Normal (Num (Finite 4))).
  cbv iota beta. rewrite default_key, E. reflexivity.
Qed.

(** The color built from a given, truthy [colors[index]]: the only step
    that can throw is the conversion behind its background. *)
Lemma givenColor_run (host : Host) (colors ci : value) (index : nat) (c : console) :
  Get colors (Index index) = Normal ci -> ToBoolean ci = true ->
  givenColor host colors index c =
    (andThen (backgroundOf host ci) (fun background =>
       Normal (Obj [("borderColor", borderOf ci);
                    ("backgroundColor", background)])), c).
Proof.
  intros Hci T.
  destruct (Get_truthy ci (Name "borderColor") T) as [b0 Hb].
  destruct (Get_truthy ci (Name "backgroundColor") T) as [g0 Hg].
  unfold givenColor, borderOf, backgroundOf, bind, lift, ret.
  rewrite Hci, Hb, Hg.
  destruct (ToBoolean b0), (ToBoolean g0); rewrite ?Hci;
    try destruct (ToString host ci); reflexivity.
Qed.

Lemma colorProvided_true (colors : value) (index : nat) :
  colorProvided colors index = true ->
  ToBoolean colors = true /\
  exists ci, Get colors (Index index) = Normal ci /\ ToBoolean ci = true.
Proof.
  unfold colorProvided. intros P.
  apply andb_true_iff in P. destruct P as [TC P]. split; [exact TC |].
  destruct (Get colors (Index index)) as [ci | e]; [| discriminate P].
  exists ci. split; [reflexivity | exact P].
Qed.

Lemma datasetColor_given (host : Host) (colors ci : value) (index : nat)
    (c : console) :
  colorProvided colors index = true ->
  Get colors (Index index) = Normal ci ->
  datasetColor host colors index c =
    (andThen (backgroundOf host ci) (fun background =>
       Normal (Obj [("borderColor", borderOf ci);
                    ("backgroundColor", background)])), c).
Proof.
  intros P Hci.
  destruct (colorProvided_true colors index P) as (TC & ci' & Hci' & T).
  rewrite Hci in Hci'. injection Hci' as <-.
  unfold datasetColor, colorAt. rewrite TC.
  unfold bind at 1. unfold lift at 1. rewrite Hci, T.
  apply givenColor_run; assumption.
Qed.

Lemma datasetColor_default (host : Host) (colors : value) (index : nat)
    (c : console) :
  colorProvided colors index = false ->
  datasetColor host colors index c = fallbackColor host index c.
Proof.
  unfold colorProvided, datasetColor, colorAt. intros P.
  destruct (ToBoolean colors) eqn:TC; cbn [andb] in P.
  - unfold bind at 1. unfold lift at 1.
    destruct (Get_truthy colors (Index index) TC) as [ci Hci].
    rewrite Hci in *. rewrite P. reflexivity.
  - unfold bind at 1. unfold ret at 1. rewrite TC. reflexivity.
Qed.

(** The [color] of a dataset whose color conversion does not throw is a
    record with the two color properties: the palette entry when no color
    is given, and built from the given color otherwise. *)
Lemma backgroundOf_outcome (host : Host) (ci : value) :
  ToBoolean ci = true ->
  returns (backgroundOf host ci) =
    match Get ci (Name "backgroundColor") with
    | Normal g => ToBoolean g
    | Throw _ => false
    end || convertible ci.
Proof.
  intros T. unfold backgroundOf.
  destruct (Get_truthy ci (Name "backgroundColor") T) as [g0 Hg]. rewrite Hg.
  destruct (ToBoolean g0); [reflexivity |]. cbn [orb].
  rewrite <- (ToString_outcome host ci).
  destruct (ToString host ci); reflexivity.
Qed.

Lemma datasetColor_ready (host : Host) (colors : value) (index : nat)
    (c : console) :
  colorReady colors index = true ->
  exists b g,
    datasetColor host colors index c =
      (Normal (Obj [("borderColor", b); ("backgroundColor", g)]), c) /\
    (colorProvided colors index = false ->
     Get defaultColors (Index (index mod 4)) =
       Normal (Obj [("borderColor", b); ("backgroundColor", g)])) /\
    (forall ci, colorProvided colors index = true ->
       Get colors (Index index) = Normal ci ->
       b = borderOf ci /\ backgroundOf host ci = Normal g).
Proof.
  unfold colorReady. intros R.
  destruct (colorProvided colors index) eqn:P; cbn [negb orb] in R.
  - destruct (colorProvided_true colors index P) as (TC & ci & Hci & T).
    rewrite Hci, <- (backgroundOf_outcome host ci T) in R.
    destruct (backgroundOf host ci) as [g |] eqn:Bg; [| discriminate R].
    exists (borderOf ci), g.
    split; [| split; [discriminate |]].
    + rewrite (datasetColor_given host colors ci index c P Hci), Bg. reflexivity.
    + intros ci' _ Hci'. rewrite Hci in Hci'. injection Hci' as <-.
      split; [reflexivity | exact Bg].
  - destruct (fallbackColor_returns host index c) as (b & g & E & D).
    exists (Str b), (Str g).
    split; [| split; [intros _; exact D | discriminate]].
    rewrite (datasetColor_default host colors index c P). exact E.
Qed.

Lemma datasetColor_unready (host : Host) (colors : value) (index : nat)
    (c : console) :
  colorReady colors index = false ->
  exists e, datasetColor host colors index c = (Throw e, c).
Proof.
  unfold colorReady. intros R.
  destruct (colorProvided colors index) eqn:P; cbn [negb orb] in R;
    [| discriminate R].
  destruct (colorProvided_true colors index P) as (TC & ci & Hci & T).
  rewrite Hci, <- (backgroundOf_outcome host ci T) in R.
  destruct (backgroundOf host ci) as [g | e] eqn:Bg; [discriminate R |].
  exists e.
  rewrite (datasetColor_given host colors ci index c P Hci), Bg. reflexivity.
Qed.

Lemma seriesAt_nth (dataArray : list value) (index : nat) :
  (if isArray (nth index dataArray Undefined)
   then nth index dataArray Undefined else Arr []) = seriesAt dataArray index.
Proof.
  unfold seriesAt.
  destruct (nth_error dataArray index) as [v |] eqn:E.
  - rewrite (nth_error_nth _ _ _ E). destruct v; reflexivity.
  - rewrite nth_overflow by (apply nth_error_None; exact E). reflexivity.
Qed.

Lemma makeDataset_ready (host : Host) (colors : value) (dataArray : list value)
    (type : value) (index : nat) (c : console) :
  colorReady colors index = true ->
  exists d,
    makeDataset host colors (Arr dataArray) type index c = (Normal d, c) /\
    datasetOf colors dataArray type index d /\
    (forall ci, colorProvided colors index = true ->
       Get colors (Index index) = Normal ci ->
       borderColor d = borderOf ci /\
       backgroundOf host ci = Normal (backgroundColor d)).
Proof.
  intros R.
  destruct (datasetColor_ready host colors index c R) as (b & g & E & D & G).
  exists {| label := type;
            data := if isArray (nth index dataArray Undefined)
                    then nth index dataArray Undefined else Arr [];
            borderColor := b;
            backgroundColor := g;
            fill := false;
            tension := 0.4%Q |}.
  split; [| split].
  - unfold makeDataset. unfold bind at 1. rewrite E.
    unfold bind, lift, ret. cbn [Get].
    destruct (isArray (nth index dataArray Undefined)) eqn:A;
      cbn [String.eqb Ascii.eqb Bool.eqb lookup key_string]; reflexivity.
  - unfold datasetOf. cbn [label data fill tension borderColor backgroundColor].
    repeat split; try reflexivity; [apply seriesAt_nth | exact D].
  - cbn [borderColor backgroundColor]. exact G.
Qed.

Lemma makeDataset_unready (host : Host) (colors dataArray : value)
    (type : value) (index : nat) (c : console) :
  colorReady colors index = false ->
  exists e, makeDataset host colors dataArray type index c = (Throw e, c).
Proof.
  intros R. destruct (datasetColor_unready host colors index c R) as [e E].
  exists e. unfold makeDataset. unfold bind at 1. rewrite E. reflexivity.
Qed.

(** [map] over indices at which the callback returns, leaving the console
    alone: one result per element, each related to its element and index. *)
Lemma map_from_returns {B} (f : value -> nat -> M B) (ready : nat -> bool)
    (P : value -> nat -> B -> Prop) :
  (forall e i c, ready i = true -> exists b, f e i c = (Normal b, c) /\ P e i b) ->
  forall elems start c,
  forallb ready (seq start (List.length elems)) = true ->
  exists bs,
    map_from f elems start c = (Normal bs, c) /\
    List.length bs = List.length elems /\
    forall k e, nth_error elems k = Some e ->
      exists b, nth_error bs k = Some b /\ P e (start + k)%nat b.
Proof.
  intros Hf elems.
  induction elems as [| e rest IH]; intros start c R.
  - exists []. repeat split. intros [| k] x H; discriminate H.
  - cbn [List.length seq forallb] in R.
    apply andb_true_iff in R. destruct R as [R0 R].
    destruct (Hf e start c R0) as (b & Eb & Pb).
    destruct (IH (S start) c R) as (bs & Ebs & Len & Each).
    exists (b :: bs). cbn [map_from]. unfold bind, ret. rewrite Eb, Ebs.
    split; [reflexivity |]. split; [simpl; congruence |].
    intros [| k] x H.
    + injection H as <-. exists b. rewrite Nat.add_0_r. split; [reflexivity | exact Pb].
    + destruct (Each k x H) as (b' & Hb' & Pb').
      exists b'. split; [exact Hb' |].
      replace (start + S k)%nat with (S start + k)%nat by lia. exact Pb'.
Qed.

(** [map] throws, with the console as it was, as soon as the callback
    throws at some index. *)
Lemma map_from_throws {B} (f : value -> nat -> M B) (ready : nat -> bool) :
  (forall e i c, ready i = true -> exists b, f e i c = (Normal b, c)) ->
  (forall e i c, ready i = false -> exists err, f e i c = (Throw err, c)) ->
  forall elems start c,
  forallb ready (seq start (List.length elems)) = false ->
  exists err, map_from f elems start c = (Throw err, c).
Proof.
  intros Hok Hno elems.
  induction elems as [| e rest IH]; intros start c R.
  - discriminate R.
  - cbn [List.length seq forallb] in R. cbn [map_from]. unfold bind.
    destruct (ready start) eqn:R0.
    + destruct (Hok e start c R0) as (b & Eb). rewrite Eb.
      cbn [andb] in R. destruct (IH (S start) c R) as (err & E).
      rewrite E. exists err. reflexivity.
    + destruct (Hno e start c R0) as (err & E). rewrite E.
      exists err. reflexivity.
Qed.

(** On three arrays whose conversions do not throw, [formatData] returns
    with the console untouched: the labels are the formatted timestamps and
    dataset [i] is that of series [i]. *)
Lemma formatData_arrays (host : Host) (types timestamps dataArray : list value)
    (colors : value) (c : console) :
  seriesReady colors (List.length types) = true ->
  timeReady timestamps = true ->
  exists ds ls,
    formatData host (Arr types) (Arr timestamps) (Arr dataArray) colors c =
      (Normal {| labels := ls; datasets := ds |}, c) /\
    formatTimestamps host (Arr timestamps) = Normal ls /\
    List.length ds = List.length types /\
    forall i type, nth_error types i = Some type ->
      exists d, nth_error ds i = Some d /\
        datasetOf colors dataArray type i d /\
        (forall ci, colorProvided colors i = true ->
           Get colors (Index i) = Normal ci ->
           borderColor d = borderOf ci /\
           backgroundOf host ci = Normal (backgroundColor d)).
Proof.
  intros RS RT.
  destruct (map_from_returns (makeDataset host colors (Arr dataArray))
              (colorReady colors)
              (fun type i d =>
                 datasetOf colors dataArray type i d /\
                 (forall ci, colorProvided colors i = true ->
                    Get colors (Index i) = Normal ci ->
                    borderColor d = borderOf ci /\
                    backgroundOf host ci = Normal (backgroundColor d)))
              (makeDataset_ready host colors dataArray) types 0%nat c RS)
    as (ds & E & Len & Each).
  destruct (formatTimestamps_returns host timestamps RT) as (ls & El & _).
  exists ds, ls.
  split; [| split; [exact El | split; [exact Len |]]].
  - unfold formatData. cbn [isArray negb orb array_map].
    unfold bind at 1. rewrite E.
    unfold bind, lift, ret. rewrite El. reflexivity.
  - intros i type Hi. destruct (Each i type Hi) as (d & Hd & Dof & G).
    exists d. auto.
Qed.

Lemma formatData_arrays_throws (host : Host)
    (types timestamps dataArray : list value) (colors : value) (c : console) :
  seriesReady colors (List.length types) && timeReady timestamps = false ->
  exists e,
    formatData host (Arr types) (Arr timestamps) (Arr dataArray) colors c =
      (Throw e, c).
Proof.
  intros R. unfold formatData. cbn [isArray negb orb array_map].
  destruct (seriesReady colors (List.length types)) eqn:RS; cbn [andb] in R.
  - destruct (map_from_returns (makeDataset host colors (Arr dataArray))
                (colorReady colors) (fun _ _ _ => True)
                (fun type i c0 R0 =>
                   match makeDataset_ready host colors dataArray type i c0 R0 with
                   | ex_intro _ d (conj E _) => ex_intro _ d (conj E I)
                   end)
                types 0%nat c RS)
      as (ds & E & _).
    destruct (formatTimestamps_throws host timestamps R) as [e El].
    exists e. unfold bind at 1. rewrite E.
    unfold bind, lift. rewrite El. reflexivity.
  - destruct (map_from_throws (makeDataset host colors (Arr dataArray))
                (colorReady colors)
                (fun type i c0 R0 =>
                   match makeDataset_ready host colors dataArray type i c0 R0 with
                   | ex_intro _ d (conj E _) => ex_intro _ d E
                   end)
                (makeDataset_unready host colors (Arr dataArray))
                types 0%nat c RS)
      as (e & E).
    exists e. unfold bind at 1. rewrite E. reflexivity.
Qed.

Lemma formatData_not_arrays (host : Host) (types timestamps dataArray colors : value)
    (c : console) :
  isArray types = false \/ isArray timestamps = false \/ isArray dataArray = false ->
  formatData host types timestamps dataArray colors c =
    (Normal emptyChart, (c ++ [invalidInputEntry types timestamps dataArray])%list).
Proof.
  intros H. unfold formatData.
  assert (G : negb (isArray types) || negb (isArray timestamps)
              || negb (isArray dataArray) = true).
  { destruct H as [H | [H | H]]; rewrite H; cbn [negb orb];
      rewrite ?orb_true_r; reflexivity. }
  rewrite G. reflexivity.
Qed.

(** When the conversions of its colors do not throw: a falsy [colors], or
    colors each of which converts to a string. *)
Lemma seriesReady_no_colors (colors : value) (count : nat) :
  ToBoolean colors = false -> seriesReady colors count = true.
Proof.
  intros F. unfold seriesReady. apply forallb_forall. intros i _.
  unfold colorReady, colorProvided. rewrite F. reflexivity.
Qed.


(** The worked example on the reference host: two series, one timestamp,
    no colors. *)
Example formatData_worked_example :
  formatData utcHost exampleTypes exampleTime exampleData Undefined [] =
    (Normal
       {| labels := ["01-01 00:00"];
          datasets :=
            [ {| label := Str "Temp";
                 data := Arr [Num (Finite 10)];
                 borderColor := Str "rgb(255, 206, 86)";
                 backgroundColor := Str "rgba(255, 206, 86, 0.2)";
                 fill := false;
                 tension := 0.4%Q |};
              {| label := Str "Humidity";
                 data := Arr [Num (Finite 50)];
                 borderColor := Str "rgb(54, 162, 235)";
                 backgroundColor := Str "rgba(54, 162, 235, 0.2)";
                 fill := false;
                 tension := 0.4%Q |} ] |}, []).
Proof. reflexivity. Qed.

(** A color given as a string serves as border and, with the suffix [4D],
    as background; a color record supplies its own properties. *)
Example formatData_given_colors :
  fst (formatData utcHost (Arr [Str "Temp"; Str "Humidity"]) (Arr []) (Arr [])
         (Arr [Str "#ff0000";
               Obj [("borderColor", Str "red"); ("backgroundColor", Str "pink")]])
         []) =
    Normal
      {| labels := [];
         datasets :=
           [ {| label := Str "Temp";
                data := Arr [];
                borderColor := Str "#ff0000";
                backgroundColor := Str "#ff00004D";
                fill := false;
                tension := 0.4%Q |};
             {| label := Str "Humidity";
                data := Arr [];
                borderColor := Str "red";
                backgroundColor := Str "pink";
                fill := false;
                tension := 0.4%Q |} ] |}.
Proof. reflexivity. Qed.

(** C1: when any of [types], [timestamps], [dataArray] is not an array,
    whatever the other arguments and the colors are, [formatData] returns
    normally (it does not throw) with the empty chart input
    [{labels: [], datasets: []}], having logged one diagnostic. *)
Theorem C1_formatData_malformed_input (host : Host)
    (types timestamps dataArray colors : value) (c : console) :
  isArray types = false \/ isArray timestamps = false \/ isArray dataArray = false ->
  formatData host types timestamps dataArray colors c =
    (Normal {| labels := []; datasets := [] |},
     (c ++ [invalidInputEntry types timestamps dataArray])%list).
Proof.
  intros H. apply (formatData_not_arrays host types timestamps dataArray colors c H).
Qed.

Lemma C1_formatData_malformed_input_witness :
  formatData utcHost exampleTypes Null exampleData (Str "red") [] =
    (Normal {| labels := []; datasets := [] |},
     [invalidInputEntry exampleTypes Null exampleData]).
Proof.
  apply (C1_formatData_malformed_input utcHost exampleTypes Null exampleData
           (Str "red") []).
  right; left; reflexivity.
Defined.







(* ================================================================= *)
(** ** Interaction state *)

Lemma quickFilter_cases (button : string) :
  In button quickFilters -> button = "oneD" \/ button = "oneW" \/ button = "oneM".
Proof.
  intros [H | [H | [H | []]]]; auto.
Qed.

Lemma eqb_other (a b : string) : a <> b -> String.eqb a b = false.
Proof. intros N. destruct (String.eqb_spec a b); [contradiction | reflexivity]. Qed.

(** A mounted component starts idle with the one-day filter active. *)
Example initialState_idle (p : props) (today : Z) :
  loading (initialState p today) = false /\
  selectedFilterButton (initialState p today) = "oneD" /\
  dataSize (initialState p today) = 0%nat.
Proof. repeat split. Qed.

(** C2: a click on a quick-filter button [B] that is not the active one
    makes [B] the active filter, sets the range to the dates of
    [now - D] and [now] with [D] one, seven or thirty days, calls the host's
    [filterChange] exactly once, with "Hourly", "Daily" or "Monthly", and
    sets [loading]. *)
Theorem C2_click_inactive_filter (t : string -> string) (st : state)
    (B : string) (now : Z) :
  In B quickFilters ->
  selectedFilterButton st <> B ->
  selectedFilterButton (fst (step t st (Click B now))) = B /\
  selectedStartDate (fst (step t st (Click B now))) =
    DateObject (TimeClip (now - rangeDays B * msPerDay)) /\
  (Z.abs (now - rangeDays B * msPerDay) <= maxTime ->
   selectedStartDate (fst (step t st (Click B now))) =
     DateObject (Some (now - rangeDays B * msPerDay))) /\
  selectedEndDate (fst (step t st (Click B now))) = DateObject (Some now) /\
  snd (step t st (Click B now)) = [granularityOf B] /\
  loading (fst (step t st (Click B now))) = true /\
  (rangeDays B = 1 /\ granularityOf B = "Hourly" /\ B = "oneD" \/
   rangeDays B = 7 /\ granularityOf B = "Daily" /\ B = "oneW" \/
   rangeDays B = 30 /\ granularityOf B = "Monthly" /\ B = "oneM").
Proof.
  intros HB Hother.
  assert (Clip : forall d,
            Z.abs (now - d) <= maxTime ->
            DateObject (TimeClip (now - d)) = DateObject (Some (now - d))).
  { intros d R. rewrite TimeClip_valid by exact R. reflexivity. }
  destruct (quickFilter_cases B HB) as [-> | [-> | ->]];
    unfold step, handle, onClick;
    cbn [filterButtons List.find key String.eqb Ascii.eqb Bool.eqb action];
    rewrite (eqb_other _ _ Hother);
    cbn [run apply_setter fst snd selectedFilterButton selectedStartDate
         selectedEndDate loading];
    (split; [reflexivity |]);
    (split; [reflexivity |]);
    (split; [apply Clip |]);
    (split; [reflexivity |]);
    (split; [reflexivity |]);
    (split; [reflexivity |]);
    [ left | right; left | right; right ]; repeat split; reflexivity.
Qed.

Lemma C2_click_inactive_filter_witness :
  fst (step noTranslation idleState (Click "oneW" 1700000000000)) =
    {| showStartDatePicker := false;
       showEndDatePicker := false;
       loading := true;
       selectedFilter := "Daily";
       selectedFilterButton := "oneW";
       dataSize := 0;
       selectedStartDate := DateObject (Some 1699395200000);
       selectedEndDate := DateObject (Some 1700000000000) |} /\
  selectedStartDate (fst (step noTranslation idleState (Click "oneW" 1700000000000))) =
    DateObject (TimeClip (1700000000000 - rangeDays "oneW" * msPerDay)) /\
  snd (step noTranslation idleState (Click "oneW" 1700000000000)) = ["Daily"].
Proof.
  split; [reflexivity |].
  destruct (C2_click_inactive_filter noTranslation idleState "oneW" 1700000000000)
    as (_ & Start & _ & _ & Calls & _).
  - right; left; reflexivity.
  - discriminate.
  - split; [exact Start | exact Calls].
Defined.

(** The render returns exactly when the conversions of its props do not
    throw; what it returns carries the buttons, the overlay tests, the
    title and the chart input. *)
Lemma formatData_ready (host : Host) (p : props) (c : console) :
  chartReady p = true ->
  exists chart c',
    formatData host (p_types p) (p_time p) (p_data p) (p_colors p) c =
      (Normal chart, c').
Proof.
  unfold chartReady. intros R.
  destruct (p_types p) as [| | | | | types |] eqn:A1;
    try (rewrite formatData_not_arrays by (left; reflexivity); eauto).
  destruct (p_time p) as [| | | | | timestamps |] eqn:A2;
    try (rewrite formatData_not_arrays by (right; left; reflexivity); eauto).
  destruct (p_data p) as [| | | | | dataArray |] eqn:A3;
    try (rewrite formatData_not_arrays by (right; right; reflexivity); eauto).
  apply andb_true_iff in R. destruct R as [RS RT].
  destruct (formatData_arrays host types timestamps dataArray (p_colors p) c RS RT)
    as (ds & ls & E & _).
  eauto.
Qed.

Lemma formatData_unready (host : Host) (p : props) (c : console) :
  chartReady p = false ->
  exists e,
    formatData host (p_types p) (p_time p) (p_data p) (p_colors p) c = (Throw e, c).
Proof.
  unfold chartReady. intros R.
  destruct (p_types p) as [| | | | | types |]; try discriminate R.
  destruct (p_time p) as [| | | | | timestamps |]; try discriminate R.
  destruct (p_data p) as [| | | | | dataArray |]; try discriminate R.
  apply formatData_arrays_throws, R.
Qed.

Lemma render_returns (host : Host) (t : string -> string) (p : props)
    (st : state) (c : console) :
  renderReady p = true ->
  exists v c', render host t p st c = (Normal v, c').
Proof.
  unfold renderReady. intros R.
  apply andb_true_iff in R. destruct R as [RC RT].
  destruct (formatData_ready host p c RC) as (chart & c' & E).
  rewrite <- (ToString_outcome host) in RT.
  destruct (ToString host (p_timeline p)) as [timeline |] eqn:Tl; [| discriminate RT].
  eexists. exists c'.
  unfold render, bind, lift, ret, titleText. rewrite E, Tl. reflexivity.
Qed.

Lemma render_throws (host : Host) (t : string -> string) (p : props)
    (st : state) (c : console) :
  renderReady p = false ->
  exists e c', render host t p st c = (Throw e, c').
Proof.
  unfold renderReady. intros R.
  rewrite <- (ToString_outcome host) in R.
  unfold render, bind, lift, ret, titleText.
  destruct (chartReady p) eqn:RC; cbn [andb] in R.
  - destruct (formatData_ready host p c RC) as (chart & c' & E). rewrite E.
    destruct (ToString host (p_timeline p)) as [timeline | e]; [discriminate R |].
    exists e, c'. reflexivity.
  - destruct (formatData_unready host p c RC) as (e & E). rewrite E.
    exists e, c. reflexivity.
Qed.

Lemma render_view (host : Host) (t : string -> string) (p : props)
    (st : state) (c c' : console) (v : view) :
  render host t p st c = (Normal v, c') ->
  formatData host (p_types p) (p_time p) (p_data p) (p_colors p) c =
    (Normal (chart v), c') /\
  titleText host t p = Normal (chartTitle v) /\
  buttons v = renderButtons t st /\
  loadingOverlay v = ToBoolean (js_or (Bool (loading st)) (p_leftLoad p)) /\
  innerLoadingOverlay v = ToBoolean (js_or (Bool (loading st)) (p_leftLoad p)) /\
  blur v = ToBoolean (js_or (Bool (loading st)) (p_leftLoad p)).
Proof.
  unfold render, bind, lift, ret.
  destruct (formatData host (p_types p) (p_time p) (p_data p) (p_colors p) c)
    as [[data | e] c1]; [| discriminate].
  destruct (titleText host t p) as [title | e]; [| discriminate].
  intros E. injection E as <- <-. repeat split; reflexivity.
Qed.

Lemma renderButtons_disabled_flag (t : string -> string) (st : state) (b : buttonView) :
  In b (renderButtons t st) ->
  disabled b = String.eqb (selectedFilterButton st) (view_key b) /\
  activeFilter b = disabled b.
Proof.
  unfold renderButtons. intros Hb.
  apply in_map_iff in Hb. destruct Hb as (fb & <- & _). split; reflexivity.
Qed.

(** C3: a click on the active quick-filter button does nothing: the handler
    makes no call, so the host's [filterChange] is not invoked and the state
    (active filter, date range, loading flag and the rest) stays as it was;
    and the button strip has that button disabled, in every view a render
    returns (a render returns whenever the conversions of its props do not
    throw). *)
Theorem C3_click_active_filter (host : Host) (t : string -> string)
    (st : state) (B : string) (now : Z) :
  In B quickFilters ->
  selectedFilterButton st = B ->
  handle t st (Click B now) = [] /\
  step t st (Click B now) = (st, []) /\
  (exists b, In b (renderButtons t st) /\ view_key b = B /\ disabled b = true) /\
  (forall p c v c',
     render host t p st c = (Normal v, c') ->
     buttons v = renderButtons t st /\
     (exists b, In b (buttons v) /\ view_key b = B /\ disabled b = true) /\
     (forall b, In b (buttons v) -> view_key b = B -> disabled b = true) /\
     (forall b, In b (buttons v) ->
        disabled b = String.eqb (selectedFilterButton st) (view_key b))) /\
  (forall p c, renderReady p = true ->
     exists v c', render host t p st c = (Normal v, c')).
Proof.
  intros HB Active.
  assert (Quiet : handle t st (Click B now) = []).
  { destruct (quickFilter_cases B HB) as [-> | [-> | ->]];
      unfold handle, onClick;
      cbn [filterButtons List.find key String.eqb Ascii.eqb Bool.eqb action];
      rewrite Active; reflexivity. }
  assert (Shown : exists b, In b (renderButtons t st) /\ view_key b = B /\
                            disabled b = true).
  { destruct (quickFilter_cases B HB) as [-> | [-> | ->]];
      unfold renderButtons; cbn [filterButtons List.map key buttonLabel];
      rewrite Active;
      [ eexists; split; [left; reflexivity | split; reflexivity]
      | eexists; split; [right; left; reflexivity | split; reflexivity]
      | eexists; split; [right; right; left; reflexivity | split; reflexivity] ]. }
  split; [exact Quiet |].
  split; [unfold step; rewrite Quiet; reflexivity |].
  split; [exact Shown |].
  split; [| intros p c; apply render_returns].
  intros p c v c' E.
  destruct (render_view host t p st c c' v E) as (_ & _ & Eb & _).
  rewrite Eb. split; [reflexivity |]. split; [exact Shown |].
  split.
  - intros b Hb Hk.
    rewrite (proj1 (renderButtons_disabled_flag t st b Hb)), Hk, Active.
    apply String.eqb_refl.
  - intros b Hb. apply (renderButtons_disabled_flag t st b Hb).
Qed.

Lemma C3_click_active_filter_witness :
  step noTranslation idleState (Click "oneD" 1700000000000) = (idleState, []) /\
  exists v c',
    render utcHost noTranslation noProps idleState [] = (Normal v, c') /\
    exists b, In b (buttons v) /\ view_key b = "oneD" /\ disabled b = true.
Proof.
  destruct (C3_click_active_filter utcHost noTranslation idleState "oneD"
              1700000000000)
    as (_ & Same & _ & Views & Returns).
  - left; reflexivity.
  - reflexivity.
  - split; [exact Same |].
    destruct (Returns noProps [] eq_refl) as (v & c' & E).
    exists v, c'. split; [exact E |].
    apply (Views noProps [] v c' E).
Defined.

(** C4, as the component has it: on a redraw-completion signal the handler
    compares only the label count with the last recorded one.  If they
    differ it records the new count and clears [loading], whether or not the
    component was loading (so a loading component becomes idle); if they are
    equal nothing changes.  The host is not called. *)
Theorem C4_animation_complete (t : string -> string) (st : state) (n : nat) :
  (n <> dataSize st ->
   step t st (AnimationComplete n) =
     ({| showStartDatePicker := showStartDatePicker st;
         showEndDatePicker := showEndDatePicker st;
         loading := false;
         selectedFilter := selectedFilter st;
         selectedFilterButton := selectedFilterButton st;
         dataSize := n;
         selectedStartDate := selectedStartDate st;
         selectedEndDate := selectedEndDate st |}, [])) /\
  (n = dataSize st -> step t st (AnimationComplete n) = (st, [])) /\
  (In (setDataSize n) (handle t st (AnimationComplete n)) <-> n <> dataSize st) /\
  (loading st = true -> n <> dataSize st ->
   loading (fst (step t st (AnimationComplete n))) = false /\
   dataSize (fst (step t st (AnimationComplete n))) = n).
Proof.
  unfold step, handle, onComplete.
  destruct (Nat.eqb_spec n (dataSize st)) as [Same | Differ]; cbn [negb run apply_setter].
  - split; [intros N; contradiction |].
    split; [reflexivity |].
    split; [split; [intros [] | intros N; contradiction] |].
    intros _ N; contradiction.
  - split; [reflexivity |].
    split; [intros E; contradiction |].
    split; [split; [intros _; exact Differ | intros _; left; reflexivity] |].
    intros _ _. split; reflexivity.
Qed.

Lemma C4_animation_complete_witness :
  step noTranslation idleState (AnimationComplete 3) =
    ({| showStartDatePicker := false;
        showEndDatePicker := false;
        loading := false;
        selectedFilter := "Range";
        selectedFilterButton := "oneD";
        dataSize := 3;
        selectedStartDate := DateObject (Some 0);
        selectedEndDate := DateObject (Some 0) |}, []) /\
  step noTranslation idleState (AnimationComplete 0) = (idleState, []).
Proof.
  destruct (C4_animation_complete noTranslation idleState 3) as (Differ & _).
  destruct (C4_animation_complete noTranslation idleState 0) as (_ & Same & _).
  split; [apply Differ; discriminate | apply Same; reflexivity].
Defined.

(** C4 as claimed fails on an idle component: freshly mounted (not loading,
    recorded count 0), a completion signal with 3 labels records the count
    3. *)
Lemma C4_counterexample :
  loading idleState = false /\
  dataSize idleState = 0%nat /\
  dataSize (fst (step noTranslation idleState (AnimationComplete 3))) = 3%nat /\
  ~ (In (setDataSize 3) (handle noTranslation idleState (AnimationComplete 3)) <->
     loading idleState = true /\ 3%nat <> dataSize idleState).
Proof.
  repeat split.
  intros [Only _].
  assert (Recorded : In (setDataSize 3)
                       (handle noTranslation idleState (AnimationComplete 3)))
    by (left; reflexivity).
  destruct (Only Recorded) as [Loading _]. discriminate Loading.
Qed.

(** C5: in every view a render returns, the loading overlay (both copies)
    and the blur class are rendered exactly when [loading] is true or
    [leftLoad] is truthy, hence not rendered exactly when both are false.  A
    different [leftLoad] changes only these: the render returns or throws
    as before, with the same buttons, chart input and title, and the hook
    state does not depend on it. *)
Theorem C5_loading_overlay (host : Host) (t : string -> string)
    (p : props) (st : state) (c : console) :
  (forall v c',
     render host t p st c = (Normal v, c') ->
     loadingOverlay v = loading st || ToBoolean (p_leftLoad p) /\
     innerLoadingOverlay v = loading st || ToBoolean (p_leftLoad p) /\
     blur v = loading st || ToBoolean (p_leftLoad p) /\
     (loadingOverlay v = false <->
      loading st = false /\ ToBoolean (p_leftLoad p) = false) /\
     forall flag : bool,
     exists w,
       render host t (with_leftLoad (Bool flag) p) st c = (Normal w, c') /\
       loadingOverlay w = loading st || flag /\
       innerLoadingOverlay w = loading st || flag /\
       blur w = loading st || flag /\
       buttons w = buttons v /\
       chart w = chart v /\
       chartTitle w = chartTitle v) /\
  (renderReady p = true ->
   exists v c', render host t p st c = (Normal v, c')) /\
  (forall flag, renderReady (with_leftLoad flag p) = renderReady p) /\
  (forall flag e c',
     render host t p st c = (Throw e, c') ->
     render host t (with_leftLoad flag p) st c = (Throw e, c')) /\
  (forall flag today,
     initialState (with_leftLoad flag p) today = initialState p today).
Proof.
  assert (Busy : forall flag,
            ToBoolean (js_or (Bool (loading st)) flag) = loading st || ToBoolean flag).
  { intros flag. unfold js_or. cbn [ToBoolean].
    destruct (loading st); reflexivity. }
  split; [| split; [apply render_returns | split; [reflexivity | split]]].
  - intros v c' E.
    destruct (render_view host t p st c c' v E) as (Ed & Et & Eb & Eo & Ei & Ebl).
    rewrite Eo, Ei, Ebl, Busy.
    split; [reflexivity |]. split; [reflexivity |]. split; [reflexivity |].
    split; [apply orb_false_iff |].
    intros flag. eexists. split.
    + unfold render, bind, lift, ret.
      cbn [with_leftLoad p_types p_time p_data p_colors].
      rewrite Ed.
      change (titleText host t (with_leftLoad (Bool flag) p))
        with (titleText host t p).
      rewrite Et. reflexivity.
    + cbn [loadingOverlay innerLoadingOverlay blur buttons chart chartTitle
           with_leftLoad p_leftLoad].
      rewrite Busy. cbn [ToBoolean]. rewrite Eb. repeat split; reflexivity.
  - intros flag e c' E. unfold render, bind, lift, ret in *.
    cbn [with_leftLoad p_types p_time p_data p_colors].
    change (titleText host t (with_leftLoad flag p)) with (titleText host t p).
    destruct (formatData host (p_types p) (p_time p) (p_data p) (p_colors p) c)
      as [[data | e1] c1]; [| exact E].
    destruct (titleText host t p) as [title | e2]; [discriminate E | exact E].
  - reflexivity.
Qed.

Lemma C5_loading_overlay_witness :
  exists v c',
    render utcHost noTranslation noProps idleState [] = (Normal v, c') /\
    loadingOverlay v = false /\
    exists w,
      render utcHost noTranslation (with_leftLoad (Bool true) noProps) idleState [] =
        (Normal w, c') /\
      loadingOverlay w = true /\ buttons w = buttons v.
Proof.
  destruct (C5_loading_overlay utcHost noTranslation noProps idleState [])
    as (Views & Returns & _).
  destruct (Returns eq_refl) as (v & c' & E).
  destruct (Views v c' E) as (_ & _ & _ & Hidden & Forced).
  exists v, c'. split; [exact E |].
  split; [apply Hidden; split; reflexivity |].
  destruct (Forced true) as (w & Ew & Shown & _ & _ & Same & _).
  exists w. split; [exact Ew |]. split; [exact Shown | exact Same].
Defined.


(* ================================================================= *)
(** ** More on labels *)



(** X2: a number is taken as milliseconds since the epoch.  Within the
    range of dates, and other than 0, it formats as the local fields of that
    instant; beyond the range it gives the NaN text. *)
Theorem formatTimestamp_epoch_milliseconds (host : Host) (z : Z) :
  z <> 0 ->
  (Z.abs z <= maxTime ->
   formatTimestamp host (Num (Finite z)) =
     Normal (twoDigits (MonthFromTime (LocalTime host z) + 1) ++ "-" ++
             twoDigits (DateFromTime (LocalTime host z)) ++ " " ++
             twoDigits (HourFromTime (LocalTime host z)) ++ ":" ++
             twoDigits (MinFromTime (LocalTime host z)))) /\
  (maxTime < Z.abs z ->
   formatTimestamp host (Num (Finite z)) = Normal invalidText).
Proof.
  intros NZ.
  assert (T : ToBoolean (Num (Finite z)) = true).
  { cbn [ToBoolean]. destruct (Z.eqb_spec z 0); [contradiction | reflexivity]. }
  split; intros R.
  - apply formatTimestamp_dated; [exact T |].
    cbn [NewDate]. rewrite (TimeClip_valid z R). reflexivity.
  - apply formatTimestamp_undated; [exact T |].
    cbn [NewDate]. unfold TimeClip.
    destruct (Z.leb_spec (Z.abs z) maxTime); [lia | reflexivity].
Qed.

Lemma formatTimestamp_epoch_milliseconds_witness :
  formatTimestamp utcHost (Num (Finite 1709251199000)) = Normal "02-29 23:59" /\
  formatTimestamp utcHost (Num (Finite 8640000000000001)) = Normal invalidText.
Proof.
  split.
  - rewrite (proj1 (formatTimestamp_epoch_milliseconds utcHost 1709251199000
                      ltac:(discriminate)))
      by (vm_compute; discriminate).
    reflexivity.
  - apply (proj2 (formatTimestamp_epoch_milliseconds utcHost 8640000000000001
                    ltac:(discriminate))).
    reflexivity.
Defined.

(* ================================================================= *)
(** ** Labels of UTC timestamps *)

Lemma DayFromYear_increasing (a b : Z) : a < b -> DayFromYear a < DayFromYear b.
Proof.
  intros L. unfold DayFromYear. Z.div_mod_to_equations. lia.
Qed.

Lemma YearFromDay_unique (y d : Z) :
  DayFromYear y <= d < DayFromYear (y + 1) -> YearFromDay d = y.
Proof.
  intros R. pose proof (YearFromDay_spec d) as S.
  destruct (Z.lt_trichotomy (YearFromDay d) y) as [L | [E | G]]; [| exact E |].
  - assert (YearFromDay d + 1 = y \/ YearFromDay d + 1 < y) as [E | L2] by lia.
    + rewrite E in S. lia.
    + pose proof (DayFromYear_increasing _ _ L2). lia.
  - assert (y + 1 = YearFromDay d \/ y + 1 < YearFromDay d) as [E | L2] by lia.
    + rewrite <- E in S. lia.
    + pose proof (DayFromYear_increasing _ _ L2). lia.
Qed.

Lemma month_cases (mo : Z) :
  1 <= mo <= 12 ->
  mo = 1 \/ mo = 2 \/ mo = 3 \/ mo = 4 \/ mo = 5 \/ mo = 6 \/ mo = 7
  \/ mo = 8 \/ mo = 9 \/ mo = 10 \/ mo = 11 \/ mo = 12.
Proof. lia. Qed.

Lemma day_in_year (leap : bool) (mo d : Z) :
  1 <= mo <= 12 -> 1 <= d ->
  d <= (if mo =? 12 then 31
        else daysBeforeMonth leap (mo + 1) - daysBeforeMonth leap mo) ->
  let n := daysBeforeMonth leap mo + d - 1 in
  let l := if leap then 1 else 0 in
  0 <= n < 365 + l /\
  (if n <? 31 then 0
   else if n <? 59 + l then 1
   else if n <? 90 + l then 2
   else if n <? 120 + l then 3
   else if n <? 151 + l then 4
   else if n <? 181 + l then 5
   else if n <? 212 + l then 6
   else if n <? 243 + l then 7
   else if n <? 273 + l then 8
   else if n <? 304 + l then 9
   else if n <? 334 + l then 10
   else 11) = mo - 1.
Proof.
  intros Hm Hd Hle n l.
  destruct (month_cases mo Hm) as [M | [M | [M | [M | [M | [M | [M | [M | [M | [M | [M | M]]]]]]]]]]];
    subst mo; destruct leap; subst n l; eval_tables; cbv iota in Hle;
    (split; [lia |]);
    repeat match goal with
           | |- context [if ?x <? ?k then _ else _] => destruct (Z.ltb_spec x k)
           end; lia.
Qed.

Lemma date_in_month (leap : bool) (mo d : Z) :
  1 <= mo <= 12 ->
  let n := daysBeforeMonth leap mo + d - 1 in
  let l := if leap then 1 else 0 in
  match mo - 1 with
  | 0 => n + 1
  | 1 => n - 30
  | 2 => n - 58 - l
  | 3 => n - 89 - l
  | 4 => n - 119 - l
  | 5 => n - 150 - l
  | 6 => n - 180 - l
  | 7 => n - 211 - l
  | 8 => n - 242 - l
  | 9 => n - 272 - l
  | 10 => n - 303 - l
  | _ => n - 333 - l
  end = d.
Proof.
  intros Hm n l.
  destruct (month_cases mo Hm) as [M | [M | [M | [M | [M | [M | [M | [M | [M | [M | [M | M]]]]]]]]]]];
    subst mo; destruct leap; subst n l; eval_tables;
    match goal with
    | |- context [match ?a - 1 with _ => _ end] =>
        let v := eval vm_compute in (a - 1) in change (a - 1) with v
    end; cbv iota; lia.
Qed.

Lemma utcTime_fields (y mo d h mi s tv : Z) :
  0 <= h -> 0 <= mi -> 0 <= s ->
  utcTime y mo d h mi s = Some tv ->
  MonthFromTime tv = mo - 1 /\ DateFromTime tv = d /\
  HourFromTime tv = h /\ MinFromTime tv = mi.
Proof.
  intros Hh Hmi Hs U. unfold utcTime in U.
  destruct ((1 <=? mo) && (mo <=? 12) && (1 <=? d)
            && (d <=? (if mo =? 12 then 31
                       else daysBeforeMonth (isLeapYear y) (mo + 1)
                            - daysBeforeMonth (isLeapYear y) mo))
            && (h <=? 23) && (mi <=? 59) && (s <=? 59)) eqn:V;
    [| discriminate U].
  injection U as <-.
  repeat (apply andb_true_iff in V; destruct V as [V ?]).
  repeat match goal with
         | H : (_ <=? _) = true |- _ => apply Z.leb_le in H
         end.
  destruct (day_in_year (isLeapYear y) mo d ltac:(lia) ltac:(lia) ltac:(assumption))
    as [Hn Hmonth].
  pose proof (date_in_month (isLeapYear y) mo d ltac:(lia)) as Hdate.
  cbv zeta in Hn, Hmonth, Hdate.
  remember (daysBeforeMonth (isLeapYear y) mo + d - 1) as n eqn:En.
  remember ((DayFromYear y + daysBeforeMonth (isLeapYear y) mo + d - 1) * msPerDay
            + h * msPerHour + mi * msPerMinute + s * 1000) as tv eqn:Etv.
  assert (HD : Day tv = DayFromYear y + n).
  { subst tv n. unfold Day, msPerDay, msPerHour, msPerMinute.
    Z.div_mod_to_equations. lia. }
  assert (HY : YearFromTime tv = y).
  { unfold YearFromTime. apply YearFromDay_unique.
    rewrite HD, DayFromYear_next. unfold DaysInYear.
    destruct (isLeapYear y); lia. }
  assert (HW : DayWithinYear tv = n).
  { unfold DayWithinYear. rewrite HY, HD. lia. }
  assert (HM : MonthFromTime tv = mo - 1).
  { unfold MonthFromTime, InLeapYear. rewrite HW, HY. exact Hmonth. }
  split; [exact HM |]. split; [| split].
  - unfold DateFromTime, InLeapYear. rewrite HM, HW, HY. exact Hdate.
  - subst tv. unfold HourFromTime, msPerDay, msPerHour, msPerMinute.
    Z.div_mod_to_equations. lia.
  - subst tv. unfold MinFromTime, msPerDay, msPerHour, msPerMinute.
    Z.div_mod_to_equations. lia.
Qed.

Lemma parseUtc_shape (s : string) (tv : Z) :
  parseUtc s = Some tv ->
  exists y1 y2 y3 y4 m1 m2 d1 d2 h1 h2 n1 n2 s1 s2,
    s = String y1 (String y2 (String y3 (String y4 (String "-"
        (String m1 (String m2 (String "-" (String d1 (String d2 (String "T"
        (String h1 (String h2 (String ":" (String n1 (String n2 (String ":"
        (String s1 (String s2 "Z")))))))))))))))))).
Proof.
  intros H. unfold parseUtc in H.
  do 4 any_char s H. this_char s H.
  do 2 any_char s H. this_char s H.
  do 2 any_char s H. this_char s H.
  do 2 any_char s H. this_char s H.
  do 2 any_char s H. this_char s H.
  do 2 any_char s H. this_char s H.
  destruct s; [| reduce_parse H; discriminate H].
  repeat eexists.
Qed.

Lemma digit_char (c : ascii) (a : Z) :
  digit c = Some a -> 0 <= a <= 9 /\ c = digitChar a.
Proof.
  unfold digit, digitChar. intros H.
  destruct (Z.leb_spec 48 (Z.of_nat (nat_of_ascii c))) as [Lo |]; [| discriminate H].
  destruct (Z.leb_spec (Z.of_nat (nat_of_ascii c)) 57) as [Hi |]; [| discriminate H].
  cbn [andb] in H. injection H as <-.
  split; [lia |].
  replace (48 + Z.to_nat (Z.of_nat (nat_of_ascii c) - 48))%nat with (nat_of_ascii c)
    by lia.
  symmetry. apply ascii_nat_embedding.
Qed.

Lemma numeral_two_digits (c1 c2 : ascii) :
  numeral [c1; c2] 0 =
    match digit c1, digit c2 with
    | Some a, Some b => Some (10 * a + b)
    | _, _ => None
    end.
Proof.
  cbv beta iota delta [numeral].
  destruct (digit c1); [| reflexivity]. destruct (digit c2); reflexivity.
Qed.

Lemma numeral_two (c1 c2 : ascii) (n : Z) :
  numeral [c1; c2] 0 = Some n ->
  0 <= n <= 99 /\ twoDigits n = String c1 (String c2 "").
Proof.
  rewrite numeral_two_digits. intros H.
  destruct (digit c1) as [a |] eqn:D1; [| discriminate H].
  destruct (digit c2) as [b |] eqn:D2; [| discriminate H].
  assert (E : n = 10 * a + b) by congruence. subst n. clear H.
  destruct (digit_char c1 a D1) as [Ra ->].
  destruct (digit_char c2 b D2) as [Rb ->].
  split; [lia |].
  unfold twoDigits.
  replace ((10 * a + b) / 10) with a by (Z.div_mod_to_equations; lia).
  replace ((10 * a + b) mod 10) with b by (Z.div_mod_to_equations; lia).
  reflexivity.
Qed.

Lemma numeral_four (c1 c2 c3 c4 : ascii) (n : Z) :
  numeral [c1; c2; c3; c4] 0 = Some n -> 0 <= n <= 9999.
Proof.
  intros H.
  assert (E : numeral [c1; c2; c3; c4] 0 =
              match digit c1, digit c2, digit c3, digit c4 with
              | Some a, Some b, Some c, Some d =>
                  Some (10 * (10 * (10 * a + b) + c) + d)
              | _, _, _, _ => None
              end).
  { cbv beta iota delta [numeral].
    destruct (digit c1); [| reflexivity]. destruct (digit c2); [| reflexivity].
    destruct (digit c3); [| reflexivity]. destruct (digit c4); reflexivity. }
  rewrite E in H. clear E.
  destruct (digit c1) as [a |] eqn:D1; [| discriminate H].
  destruct (digit c2) as [b |] eqn:D2; [| discriminate H].
  destruct (digit c3) as [c |] eqn:D3; [| discriminate H].
  destruct (digit c4) as [d |] eqn:D4; [| discriminate H].
  assert (En : n = 10 * (10 * (10 * a + b) + c) + d) by congruence.
  destruct (digit_char c1 a D1) as [Ra _].
  destruct (digit_char c2 b D2) as [Rb _].
  destruct (digit_char c3 c D3) as [Rc _].
  destruct (digit_char c4 d D4) as [Rd _].
  lia.
Qed.

Lemma utcTime_range (y mo d h mi s tv : Z) :
  0 <= y <= 9999 -> 0 <= h -> 0 <= mi -> 0 <= s ->
  utcTime y mo d h mi s = Some tv -> Z.abs tv <= maxTime.
Proof.
  intros Hy Hh Hmi Hs U.
  destruct (utcTime_fields y mo d h mi s tv Hh Hmi Hs U) as (_ & _ & _ & _).
  unfold utcTime in U.
  destruct ((1 <=? mo) && (mo <=? 12) && (1 <=? d)
            && (d <=? (if mo =? 12 then 31
                       else daysBeforeMonth (isLeapYear y) (mo + 1)
                            - daysBeforeMonth (isLeapYear y) mo))
            && (h <=? 23) && (mi <=? 59) && (s <=? 59)) eqn:V;
    [| discriminate U].
  injection U as <-.
  repeat (apply andb_true_iff in V; destruct V as [V ?]).
  repeat match goal with
         | H : (_ <=? _) = true |- _ => apply Z.leb_le in H
         end.
  destruct (day_in_year (isLeapYear y) mo d ltac:(lia) ltac:(lia) ltac:(assumption))
    as [Hn _].
  cbv zeta in Hn.
  assert (Hl : 0 <= (if isLeapYear y then 1 else 0) <= 1)
    by (destruct (isLeapYear y); lia).
  assert (HY : -719528 <= DayFromYear y <= 2932532).
  { unfold DayFromYear. Z.div_mod_to_equations. lia. }
  unfold maxTime, msPerDay, msPerHour, msPerMinute. lia.
Qed.

(** X3: round trip with the reference host's reading of
    [YYYY-MM-DDTHH:mm:ssZ].  On any host that parses such a string to the
    same instant and whose local time is UTC at that instant, the label is
    the string's own month, day, hour and minute: its characters 5 to 9, a
    space, and its characters 11 to 15. *)
Theorem formatTimestamp_utc (host : Host) (s : string) (tv : Z) :
  parseUtc s = Some tv ->
  DateParse host s = Some tv ->
  LocalTZA host tv = 0 ->
  formatTimestamp host (Str s) =
    Normal (substring 5 5 s ++ " " ++ substring 11 5 s).
Proof.
  intros P D Z0.
  destruct (parseUtc_shape s tv P)
    as (y1 & y2 & y3 & y4 & m1 & m2 & d1 & d2 & h1 & h2 & n1 & n2 & s1 & s2 & ->).
  unfold parseUtc in P. cbv beta iota delta [list_ascii_of_string] in P.
  destruct (numeral [y1; y2; y3; y4] 0) as [y |] eqn:Ny; [| discriminate P].
  destruct (numeral [m1; m2] 0) as [mo |] eqn:Nm; [| discriminate P].
  destruct (numeral [d1; d2] 0) as [d |] eqn:Nd; [| discriminate P].
  destruct (numeral [h1; h2] 0) as [h |] eqn:Nh; [| discriminate P].
  destruct (numeral [n1; n2] 0) as [mi |] eqn:Nn; [| discriminate P].
  destruct (numeral [s1; s2] 0) as [sec |] eqn:Ns; [| discriminate P].
  pose proof (numeral_four _ _ _ _ _ Ny) as Ry.
  destruct (numeral_two _ _ _ Nm) as [Rm Tm].
  destruct (numeral_two _ _ _ Nd) as [Rd Td].
  destruct (numeral_two _ _ _ Nh) as [Rh Th].
  destruct (numeral_two _ _ _ Nn) as [Rn Tn].
  destruct (numeral_two _ _ _ Ns) as [Rs _].
  destruct (utcTime_fields y mo d h mi sec tv ltac:(lia) ltac:(lia) ltac:(lia) P)
    as (Fm & Fd & Fh & Fn).
  pose proof (utcTime_range y mo d h mi sec tv Ry ltac:(lia) ltac:(lia) ltac:(lia) P)
    as Rt.
  rewrite (formatTimestamp_valid host _ tv)
    by (split; [discriminate | split; [exact D | exact Rt]]).
  unfold LocalTime. rewrite Z0, Z.add_0_r, Fm, Fd, Fh, Fn.
  replace (mo - 1 + 1) with mo by lia.
  rewrite Tm, Td, Th, Tn. reflexivity.
Qed.

Lemma formatTimestamp_utc_witness :
  formatTimestamp utcHost (Str "1999-12-31T23:59:58Z") = Normal "12-31 23:59".
Proof.
  apply (formatTimestamp_utc utcHost "1999-12-31T23:59:58Z" 946684798000);
    reflexivity.
Defined.


(* ================================================================= *)
(** ** Colors of the datasets *)


Lemma colorReady_string (s : string) (i : nat) :
  colorReady (Str s) i = true.
Proof.
  unfold colorReady, colorProvided. cbn [Get].
  destruct (String.get i s); [| rewrite andb_false_r; reflexivity].
  cbn [convertible]. rewrite !orb_true_r. reflexivity.
Qed.

(** X4: a color given as a non-empty string is used as the border color,
    and with the suffix [4D] as the background color, of the dataset at its
    index (on arrays none of whose conversions throws). *)
Theorem formatData_string_color (host : Host)
    (types timestamps dataArray cs : list value) (c : console)
    (i : nat) (type : value) (s : string) :
  seriesReady (Arr cs) (List.length types) = true ->
  timeReady timestamps = true ->
  nth_error types i = Some type ->
  nth_error cs i = Some (Str s) ->
  s <> "" ->
  exists chart d,
    formatData host (Arr types) (Arr timestamps) (Arr dataArray) (Arr cs) c =
      (Normal chart, c) /\
    nth_error (datasets chart) i = Some d /\
    label d = type /\
    borderColor d = Str s /\
    backgroundColor d = Str (s ++ "4D").
Proof.
  intros RS RT Ht Hc Hs.
  destruct (formatData_arrays host types timestamps dataArray (Arr cs) c RS RT)
    as (ds & ls & E & _ & _ & Each).
  destruct (Each i type Ht) as (d & Hd & (L & _) & Col).
  assert (G : Get (Arr cs) (Index i) = Normal (Str s)).
  { cbn [Get]. rewrite (nth_error_nth _ _ _ Hc). reflexivity. }
  assert (P : colorProvided (Arr cs) i = true).
  { unfold colorProvided. rewrite G. cbn [ToBoolean andb].
    apply ToBoolean_nonempty, Hs. }
  destruct (Col (Str s) P G) as [Eb Eg].
  eexists. exists d. split; [exact E |]. cbn [datasets].
  split; [exact Hd |]. split; [exact L |].
  split; [exact Eb |].
  cbn in Eg. injection Eg as <-. reflexivity.
Qed.

Lemma formatData_string_color_witness :
  exists chart d,
    formatData utcHost exampleTypes exampleTime exampleData
      (Arr [Null; Str "#00ff00"]) [] = (Normal chart, []) /\
    nth_error (datasets chart) 1 = Some d /\
    label d = Str "Humidity" /\
    borderColor d = Str "#00ff00" /\
    backgroundColor d = Str "#00ff004D".
Proof.
  apply (formatData_string_color utcHost
           [Str "Temp"; Str "Humidity"] [Str "2024-01-01T00:00:00Z"]
           [Arr [Num (Finite 10)]; Arr [Num (Finite 50)]]
           [Null; Str "#00ff00"] [] 1 (Str "Humidity") "#00ff00").
  - reflexivity.
  - reflexivity.
  - reflexivity.
  - reflexivity.
  - discriminate.
Defined.



(** X6: when [colors] is itself an ASCII string rather than an array,
    dataset [i] is colored by the string's character at [i]: that character
    is the border, and the character followed by [4D] the background (on
    timestamps whose conversions do not throw). *)
Theorem formatData_colors_string (host : Host)
    (types timestamps dataArray : list value) (c : console)
    (i : nat) (type : value) (s : string) (ch : ascii) :
  isAscii s = true ->
  timeReady timestamps = true ->
  nth_error types i = Some type ->
  String.get i s = Some ch ->
  exists chart d,
    formatData host (Arr types) (Arr timestamps) (Arr dataArray) (Str s) c =
      (Normal chart, c) /\
    nth_error (datasets chart) i = Some d /\
    borderColor d = Str (String ch "") /\
    backgroundColor d = Str (String ch "4D").
Proof.
  intros _ RT Ht Hc.
  assert (RS : seriesReady (Str s) (List.length types) = true).
  { unfold seriesReady. apply forallb_forall. intros k _. apply colorReady_string. }
  destruct (formatData_arrays host types timestamps dataArray (Str s) c RS RT)
    as (ds & ls & E & _ & _ & Each).
  destruct (Each i type Ht) as (d & Hd & _ & Col).
  assert (G : Get (Str s) (Index i) = Normal (Str (String ch ""))).
  { cbn [Get]. rewrite Hc. reflexivity. }
  assert (P : colorProvided (Str s) i = true).
  { unfold colorProvided. rewrite G. cbn [ToBoolean String.eqb].
    rewrite andb_true_r. apply ToBoolean_nonempty.
    intros ->. destruct i; discriminate Hc. }
  destruct (Col _ P G) as [Eb Eg].
  eexists. exists d. split; [exact E |]. cbn [datasets].
  split; [exact Hd |]. split; [exact Eb |].
  cbn in Eg. injection Eg as <-. reflexivity.
Qed.

Lemma formatData_colors_string_witness :
  exists chart d,
    formatData utcHost exampleTypes exampleTime exampleData (Str "red") [] =
      (Normal chart, []) /\
    nth_error (datasets chart) 1 = Some d /\
    borderColor d = Str "e" /\
    backgroundColor d = Str "e4D".
Proof.
  apply (formatData_colors_string utcHost
           [Str "Temp"; Str "Humidity"] [Str "2024-01-01T00:00:00Z"]
           [Arr [Num (Finite 10)]; Arr [Num (Finite 50)]] [] 1 (Str "Humidity")
           "red" "e");
    reflexivity.
Defined.



(** X8: without colors the palette repeats with period four: two series
    whose indices agree modulo 4 get the same border and background, each
    taken from the palette (on timestamps whose conversions do not
    throw). *)
Theorem formatData_palette_period (host : Host)
    (types timestamps dataArray : list value) (colors : value) (c : console)
    (i j : nat) :
  ToBoolean colors = false ->
  timeReady timestamps = true ->
  (i < List.length types)%nat -> (j < List.length types)%nat ->
  (i mod 4 = j mod 4)%nat ->
  exists chart di dj,
    formatData host (Arr types) (Arr timestamps) (Arr dataArray) colors c =
      (Normal chart, c) /\
    nth_error (datasets chart) i = Some di /\
    nth_error (datasets chart) j = Some dj /\
    borderColor di = borderColor dj /\
    backgroundColor di = backgroundColor dj /\
    Get defaultColors (Index (i mod 4)) =
      Normal (Obj [("borderColor", borderColor di);
                   ("backgroundColor", backgroundColor di)]).
Proof.
  intros F RT Hi Hj Same.
  destruct (formatData_arrays host types timestamps dataArray colors c
              (seriesReady_no_colors colors _ F) RT)
    as (ds & ls & E & _ & _ & Each).
  assert (NoColor : forall k, colorProvided colors k = false).
  { intros k. unfold colorProvided. rewrite F. reflexivity. }
  destruct (nth_error types i) as [ti |] eqn:Ti;
    [| apply nth_error_None in Ti; lia].
  destruct (nth_error types j) as [tj |] eqn:Tj;
    [| apply nth_error_None in Tj; lia].
  destruct (Each i ti Ti) as (di & Hdi & (_ & _ & _ & _ & Ci) & _).
  destruct (Each j tj Tj) as (dj & Hdj & (_ & _ & _ & _ & Cj) & _).
  specialize (Ci (NoColor i)). specialize (Cj (NoColor j)).
  eexists. exists di, dj. split; [exact E |]. cbn [datasets].
  split; [exact Hdi |]. split; [exact Hdj |].
  rewrite <- Same in Cj. rewrite Ci in Cj.
  injection Cj as Eb Eg.
  split; [exact Eb |]. split; [exact Eg | exact Ci].
Qed.

Lemma formatData_palette_period_witness :
  exists chart di dj,
    formatData utcHost
      (Arr [Str "a"; Str "b"; Str "c"; Str "d"; Str "e"; Str "f"])
      (Arr []) (Arr []) Null [] = (Normal chart, []) /\
    nth_error (datasets chart) 1 = Some di /\
    nth_error (datasets chart) 5 = Some dj /\
    borderColor di = borderColor dj.
Proof.
  destruct (formatData_palette_period utcHost
              [Str "a"; Str "b"; Str "c"; Str "d"; Str "e"; Str "f"] [] [] Null []
              1 5)
    as (chart & di & dj & E & Hi & Hj & Eb & _);
    [reflexivity | reflexivity | simpl; lia | simpl; lia | reflexivity |].
  exists chart, di, dj. repeat split; assumption.
Defined.

(* ================================================================= *)
(** ** Runs of the component *)

(** A click, in one equation: it takes effect exactly on a quick filter
    other than the active one. *)
Lemma step_click (t : string -> string) (st : state) (B : string) (now : Z) :
  step t st (Click B now) =
    if existsb (String.eqb B) quickFilters
       && negb (String.eqb (selectedFilterButton st) B)
    then ({| showStartDatePicker := showStartDatePicker st;
             showEndDatePicker := showEndDatePicker st;
             loading := true;
             selectedFilter := granularityOf B;
             selectedFilterButton := B;
             dataSize := dataSize st;
             selectedStartDate := DateObject (TimeClip (now - rangeDays B * msPerDay));
             selectedEndDate := DateObject (Some now) |},
          [granularityOf B])
    else (st, []).
Proof.
  unfold step, handle, onClick.
  cbn [filterButtons List.find key].
  destruct (String.eqb_spec "oneD" B) as [<- | N1].
  - cbn [action]. destruct (String.eqb (selectedFilterButton st) "oneD"); reflexivity.
  - destruct (String.eqb_spec "oneW" B) as [<- | N2].
    + cbn [action]. destruct (String.eqb (selectedFilterButton st) "oneW"); reflexivity.
    + destruct (String.eqb_spec "oneM" B) as [<- | N3].
      * cbn [action].
        destruct (String.eqb (selectedFilterButton st) "oneM"); reflexivity.
      * unfold quickFilters. cbn [existsb].
        rewrite (eqb_other B "oneD"), (eqb_other B "oneW"), (eqb_other B "oneM")
          by congruence.
        reflexivity.
Qed.

Lemma step_complete (t : string -> string) (st : state) (n : nat) :
  step t st (AnimationComplete n) =
    if (n =? dataSize st)%nat then (st, [])
    else ({| showStartDatePicker := showStartDatePicker st;
             showEndDatePicker := showEndDatePicker st;
             loading := false;
             selectedFilter := selectedFilter st;
             selectedFilterButton := selectedFilterButton st;
             dataSize := n;
             selectedStartDate := selectedStartDate st;
             selectedEndDate := selectedEndDate st |}, []).
Proof.
  unfold step, handle, onComplete.
  destruct (n =? dataSize st)%nat; reflexivity.
Qed.

Lemma quickFilter_member (B : string) :
  existsb (String.eqb B) quickFilters = true -> In B quickFilters.
Proof.
  intros H. apply existsb_exists in H. destruct H as (x & Hx & E).
  apply String.eqb_eq in E. subst x. exact Hx.
Qed.

Lemma step_consistent (t : string -> string) (st : state) (ev : event) :
  consistent st -> consistent (fst (step t st ev)).
Proof.
  intros (S1 & S2 & S3 & S4).
  destruct ev as [B now | n].
  - rewrite step_click.
    destruct (existsb (String.eqb B) quickFilters) eqn:M; cbn [andb];
      [| repeat split; assumption].
    destruct (String.eqb (selectedFilterButton st) B); cbn [negb];
      [repeat split; assumption |].
    cbn [fst]. unfold consistent.
    cbn [showStartDatePicker showEndDatePicker selectedFilterButton selectedFilter].
    split; [exact S1 |]. split; [exact S2 |].
    split; [apply quickFilter_member, M | right; reflexivity].
  - rewrite step_complete.
    destruct (n =? dataSize st)%nat; repeat split; assumption.
Qed.

Lemma runEvents_cons (t : string -> string) (st : state) (ev : event)
    (evs : list event) :
  runEvents t st (ev :: evs) =
    (fst (runEvents t (fst (step t st ev)) evs),
     (snd (step t st ev) ++ snd (runEvents t (fst (step t st ev)) evs))%list).
Proof.
  cbn [runEvents].
  destruct (step t st ev) as [st1 out1]. cbn [fst snd].
  destruct (runEvents t st1 evs) as [st2 out2]. reflexivity.
Qed.

Lemma initialState_consistent (p : props) (today : Z) :
  consistent (initialState p today).
Proof.
  unfold consistent, initialState; cbn.
  repeat split; auto.
Qed.

Lemma runEvents_consistent (t : string -> string) (evs : list event) :
  forall st, consistent st -> consistent (fst (runEvents t st evs)).
Proof.
  induction evs as [| ev evs IH]; intros st I.
  - exact I.
  - rewrite runEvents_cons. cbn [fst]. apply IH, step_consistent, I.
Qed.

(** X9: at every render of a mounted component, whatever events came
    before, the active button is one of the three quick filters, the
    selected filter is "Range" (only while no quick filter was ever chosen)
    or the label of the active button, and neither date picker is shown. *)
Theorem reachable_consistent (t : string -> string) (p : props) (today : Z)
    (evs : list event) :
  consistent (fst (runEvents t (initialState p today) evs)).
Proof.
  apply runEvents_consistent, initialState_consistent.
Qed.

Lemma granularityOf_injective (a b : string) :
  In a quickFilters -> In b quickFilters ->
  granularityOf a = granularityOf b -> a = b.
Proof.
  intros Ha Hb.
  destruct (quickFilter_cases a Ha) as [-> | [-> | ->]];
    destruct (quickFilter_cases b Hb) as [-> | [-> | ->]];
    cbn; intros E; try reflexivity; discriminate E.
Qed.

Lemma granularityOf_label (B : string) :
  In (granularityOf B) ["Hourly"; "Daily"; "Monthly"].
Proof.
  unfold granularityOf.
  destruct (String.eqb B "oneD"); [left; reflexivity |].
  destruct (String.eqb B "oneW"); [right; left; reflexivity |].
  right; right; left; reflexivity.
Qed.

Lemma adjacentDistinct_cons (g : string) (out : list string) :
  adjacentDistinct out = true -> hd_error out <> Some g ->
  adjacentDistinct (g :: out) = true.
Proof.
  intros A H. destruct out as [| b rest]; [reflexivity |].
  cbn [adjacentDistinct]. cbn [adjacentDistinct] in A.
  apply andb_true_iff. split; [| exact A].
  destruct (String.eqb_spec g b) as [-> | N]; [| reflexivity].
  exfalso. apply H. reflexivity.
Qed.

(** The calls a run makes to the host, from any state whose active button
    is a quick filter. *)
Lemma calls_from (t : string -> string) (evs : list event) :
  forall st, In (selectedFilterButton st) quickFilters ->
    adjacentDistinct (snd (runEvents t st evs)) = true /\
    hd_error (snd (runEvents t st evs)) <>
      Some (granularityOf (selectedFilterButton st)) /\
    (List.length (snd (runEvents t st evs)) <=
     List.length (List.filter isClick evs))%nat /\
    Forall (fun g => In g ["Hourly"; "Daily"; "Monthly"]) (snd (runEvents t st evs)).
Proof.
  induction evs as [| ev evs IH]; intros st Hst.
  - cbn. repeat split; [discriminate | lia | constructor].
  - rewrite runEvents_cons. cbn [snd].
    destruct ev as [B now | n].
    + rewrite step_click.
      destruct (existsb (String.eqb B) quickFilters) eqn:M; cbn [andb].
      * destruct (String.eqb_spec (selectedFilterButton st) B) as [E | N]; cbn [negb].
        -- cbn [fst snd app List.filter isClick List.length].
           destruct (IH st Hst) as (A & H & L & F).
           repeat split; [exact A | exact H | lia | exact F].
        -- cbn [fst snd app List.filter isClick List.length].
           pose proof (quickFilter_member B M) as HB.
           match goal with
           | |- context [runEvents t ?s evs] =>
               destruct (IH s HB) as (A & H & L & F)
           end.
           cbn [selectedFilterButton] in H.
           split; [apply adjacentDistinct_cons; assumption |].
           split; [| split; [lia | constructor; [apply granularityOf_label | exact F]]].
           cbn [hd_error]. intros E. injection E as E.
           apply N. symmetry. apply granularityOf_injective; assumption.
      * cbn [fst snd app List.filter isClick List.length].
        destruct (IH st Hst) as (A & H & L & F).
        repeat split; [exact A | exact H | lia | exact F].
    + rewrite step_complete.
      destruct (n =? dataSize st)%nat;
        cbn [fst snd app List.filter isClick];
        match goal with
        | |- context [runEvents t ?s evs] =>
            destruct (IH s Hst) as (A & H & L & F)
        end;
        repeat split; assumption.
Qed.

(** X10: over any run of a mounted component, the host's [filterChange]
    is never called twice in a row with the same label, its first call is
    never "Hourly" (the filter active at mount), it is called at most once
    per click, and only with "Hourly", "Daily" or "Monthly". *)
Theorem filterChange_calls (t : string -> string) (p : props) (today : Z)
    (evs : list event) :
  adjacentDistinct (snd (runEvents t (initialState p today) evs)) = true /\
  hd_error (snd (runEvents t (initialState p today) evs)) <> Some "Hourly" /\
  (List.length (snd (runEvents t (initialState p today) evs)) <=
   List.length (List.filter isClick evs))%nat /\
  Forall (fun g => In g ["Hourly"; "Daily"; "Monthly"])
         (snd (runEvents t (initialState p today) evs)).
Proof.
  apply (calls_from t evs (initialState p today)).
  left; reflexivity.
Qed.

(** X11: the recorded label count is always the count of the latest
    completion signal (the count at the start if there was none); clicks do
    not touch it. *)
Theorem dataSize_tracks_last_completion (t : string -> string) (st : state)
    (evs : list event) :
  dataSize (fst (runEvents t st evs)) = lastLabelCount evs (dataSize st).
Proof.
  revert st. induction evs as [| ev evs IH]; intros st.
  - reflexivity.
  - rewrite runEvents_cons. cbn [fst]. rewrite IH.
    destruct ev as [B now | n]; cbn [lastLabelCount].
    + rewrite step_click.
      destruct (existsb (String.eqb B) quickFilters
                && negb (String.eqb (selectedFilterButton st) B)); reflexivity.
    + rewrite step_complete.
      destruct (Nat.eqb_spec n (dataSize st)) as [-> | N]; reflexivity.
Qed.

Lemma completions_unchanged (t : string -> string) (st : state) (ns : list nat) :
  (forall n, In n ns -> n = dataSize st) ->
  runEvents t st (List.map AnimationComplete ns) = (st, []).
Proof.
  induction ns as [| n ns IH]; intros Same.
  - reflexivity.
  - cbn [List.map]. rewrite runEvents_cons, step_complete.
    rewrite (Same n (or_introl eq_refl)), Nat.eqb_refl. cbn [fst snd].
    rewrite IH by (intros m Hm; apply Same; right; exact Hm).
    reflexivity.
Qed.

(** X12: after a click on a quick filter that is not active, completion
    signals whose label count equals the recorded one change nothing: the
    component stays in [loading], however many of them arrive. *)
Theorem loading_persists (t : string -> string) (st : state) (B : string)
    (now : Z) (ns : list nat) :
  In B quickFilters ->
  selectedFilterButton st <> B ->
  (forall n, In n ns -> n = dataSize st) ->
  loading (fst (runEvents t st (Click B now :: List.map AnimationComplete ns)))
    = true /\
  runEvents t st (Click B now :: List.map AnimationComplete ns) =
    step t st (Click B now).
Proof.
  intros HB Other Same.
  assert (Eff : existsb (String.eqb B) quickFilters
                && negb (String.eqb (selectedFilterButton st) B) = true).
  { apply andb_true_iff. split.
    - apply existsb_exists. exists B. split; [exact HB | apply String.eqb_refl].
    - rewrite (eqb_other _ _ Other). reflexivity. }
  rewrite runEvents_cons.
  rewrite (completions_unchanged t (fst (step t st (Click B now))) ns).
  - cbn [fst snd]. rewrite app_nil_r.
    split; [| destruct (step t st (Click B now)); reflexivity].
    rewrite step_click, Eff. reflexivity.
  - intros n Hn. rewrite (Same n Hn), step_click, Eff. reflexivity.
Qed.

Lemma loading_persists_witness :
  loading (fst (runEvents noTranslation idleState
                  [Click "oneM" 1700000000000;
                   AnimationComplete 0; AnimationComplete 0])) = true.
Proof.
  apply (loading_persists noTranslation idleState "oneM" 1700000000000 [0; 0]%nat).
  - right; right; left; reflexivity.
  - discriminate.
  - intros n [<- | [<- | []]]; reflexivity.
Defined.

(** X13: a click on a quick filter that is not active, followed by a
    completion signal with a label count other than the recorded one,
    brings the component back to idle with that filter active and the new
    count recorded; the host was called once. *)
Theorem click_then_redraw (t : string -> string) (st : state) (B : string)
    (now : Z) (n : nat) :
  In B quickFilters ->
  selectedFilterButton st <> B ->
  n <> dataSize st ->
  runEvents t st [Click B now; AnimationComplete n] =
    ({| showStartDatePicker := showStartDatePicker st;
        showEndDatePicker := showEndDatePicker st;
        loading := false;
        selectedFilter := granularityOf B;
        selectedFilterButton := B;
        dataSize := n;
        selectedStartDate := DateObject (TimeClip (now - rangeDays B * msPerDay));
        selectedEndDate := DateObject (Some now) |},
     [granularityOf B]).
Proof.
  intros HB Other Differ.
  assert (Eff : existsb (String.eqb B) quickFilters
                && negb (String.eqb (selectedFilterButton st) B) = true).
  { apply andb_true_iff. split.
    - apply existsb_exists. exists B. split; [exact HB | apply String.eqb_refl].
    - rewrite (eqb_other _ _ Other). reflexivity. }
  rewrite runEvents_cons, step_click, Eff. cbn [fst snd].
  rewrite runEvents_cons, step_complete. cbn [dataSize].
  destruct (Nat.eqb_spec n (dataSize st)); [contradiction |].
  reflexivity.
Qed.

Lemma click_then_redraw_witness :
  runEvents noTranslation idleState
    [Click "oneW" 1700000000000; AnimationComplete 168] =
    ({| showStartDatePicker := false;
        showEndDatePicker := false;
        loading := false;
        selectedFilter := "Daily";
        selectedFilterButton := "oneW";
        dataSize := 168;
        selectedStartDate := DateObject (Some 1699395200000);
        selectedEndDate := DateObject (Some 1700000000000) |},
     ["Daily"]).
Proof.
  apply (click_then_redraw noTranslation idleState "oneW" 1700000000000 168).
  - right; left; reflexivity.
  - discriminate.
  - discriminate.
Defined.

(** X14: a click is idempotent: right after a click on a button, a second
    click on the same button, at any later time, changes nothing and calls
    nothing. *)
Theorem second_click_is_noop (t : string -> string) (st : state) (B : string)
    (now later : Z) :
  step t (fst (step t st (Click B now))) (Click B later) =
    (fst (step t st (Click B now)), []).
Proof.
  rewrite (step_click t st B now).
  destruct (existsb (String.eqb B) quickFilters) eqn:M; cbn [andb].
  - destruct (String.eqb (selectedFilterButton st) B) eqn:A; cbn [negb fst].
    + rewrite step_click, M, A. reflexivity.
    + rewrite step_click. cbn [selectedFilterButton].
      rewrite String.eqb_refl, andb_false_r. reflexivity.
  - cbn [fst]. rewrite step_click, M. reflexivity.
Qed.






(* ================================================================= *)
(** ** The hover line *)

Lemma chartArea_read (area : value) :
  ToBoolean area = true ->
  exists left right top bottom,
    Get area (Name "left") = Normal left /\
    Get area (Name "right") = Normal right /\
    Get area (Name "top") = Normal top /\
    Get area (Name "bottom") = Normal bottom.
Proof.
  intros T.
  destruct (Get_truthy area (Name "left") T) as [l Hl].
  destruct (Get_truthy area (Name "right") T) as [r Hr].
  destruct (Get_truthy area (Name "top") T) as [tp Ht].
  destruct (Get_truthy area (Name "bottom") T) as [b Hb].
  exists l, r, tp, b. auto.
Qed.

(** X17: with no active tooltip point (no tooltip at all, a tooltip
    without [_active], or an empty [_active] array) the hook draws nothing
    and does not throw, whether or not the chart has an [x] scale. *)
Theorem hover_line_inactive (chart : chartInstance) :
  ToBoolean (chartArea chart) = true ->
  (tooltip chart = Undefined \/ tooltip chart = Null \/
   exists fields,
     tooltip chart = Obj fields /\
     (lookup "_active" fields = Undefined \/ lookup "_active" fields = Null \/
      lookup "_active" fields = Arr [])) ->
  afterDatasetsDraw chart = Normal [].
Proof.
  intros TA Inactive.
  destruct (chartArea_read _ TA) as (l & r & tp & b & Hl & Hr & Ht & Hb).
  unfold afterDatasetsDraw. rewrite Hl, Hr, Ht, Hb. cbn [andThen].
  destruct Inactive as [E | [E | (fields & E & [A | [A | A]])]]; rewrite E;
    cbn [optionalGet Get key_string andThen]; try rewrite A; reflexivity.
Qed.

Lemma hover_line_inactive_witness :
  afterDatasetsDraw
    {| tooltip := Obj [("_active", Arr [])];
       chartArea := Obj [("left", Num (Finite 0)); ("right", Num (Finite 300));
                         ("top", Num (Finite 10)); ("bottom", Num (Finite 200))];
       scales_x := None |} = Normal [].
Proof.
  apply hover_line_inactive.
  - reflexivity.
  - right; right. eexists. split; [reflexivity |]. right; right; reflexivity.
Defined.

(** X18: with at least one active tooltip point and an [x] scale, the hook
    draws one segment, from the top to the bottom of the chart area at the
    pixel of the first active point's index, between a [save] and a
    [restore]; further active points make no difference. *)
Theorem hover_line_active (chart : chartInstance)
    (fields : list (string * value)) (point : value) (others : list value)
    (getPixelForValue : value -> value) :
  ToBoolean (chartArea chart) = true ->
  tooltip chart = Obj fields ->
  lookup "_active" fields = Arr (point :: others) ->
  ToBoolean point = true ->
  scales_x chart = Some getPixelForValue ->
  exists top bottom index,
    Get (chartArea chart) (Name "top") = Normal top /\
    Get (chartArea chart) (Name "bottom") = Normal bottom /\
    Get point (Name "index") = Normal index /\
    afterDatasetsDraw chart =
      Normal [ ctx_save;
               ctx_beginPath;
               ctx_moveTo (getPixelForValue index) top;
               ctx_lineTo (getPixelForValue index) bottom;
               ctx_lineWidth (Num (Finite 2));
               ctx_strokeStyle (Str "rgba(255, 255, 255, 0.5)");
               ctx_stroke;
               ctx_restore ].
Proof.
  intros TA Tip Active TP Scale.
  destruct (chartArea_read _ TA) as (l & r & tp & b & Hl & Hr & Ht & Hb).
  destruct (Get_truthy point (Name "index") TP) as [idx Hidx].
  exists tp, b, idx.
  split; [exact Ht |]. split; [exact Hb |]. split; [exact Hidx |].
  unfold afterDatasetsDraw. rewrite Hl, Hr, Ht, Hb, Tip, Scale.
  cbn [andThen optionalGet Get key_string]. rewrite Active.
  cbn [andThen optionalGet Get String.eqb Ascii.eqb Bool.eqb nth ToBoolean].
  assert (NZ : (Z.of_nat (List.length (point :: others)) =? 0) = false)
    by (apply Z.eqb_neq; cbn [List.length]; lia).
  rewrite NZ. cbn [negb]. rewrite Hidx. reflexivity.
Qed.

Lemma hover_line_active_witness :
  afterDatasetsDraw
    {| tooltip := Obj [("_active", Arr [Obj [("index", Num (Finite 3))];
                                        Obj [("index", Num (Finite 7))]])];
       chartArea := Obj [("left", Num (Finite 0)); ("right", Num (Finite 300));
                         ("top", Num (Finite 10)); ("bottom", Num (Finite 200))];
       scales_x := Some (fun v => v) |} =
    Normal [ ctx_save;
             ctx_beginPath;
             ctx_moveTo (Num (Finite 3)) (Num (Finite 10));
             ctx_lineTo (Num (Finite 3)) (Num (Finite 200));
             ctx_lineWidth (Num (Finite 2));
             ctx_strokeStyle (Str "rgba(255, 255, 255, 0.5)");
             ctx_stroke;
             ctx_restore ].
Proof.
  destruct (hover_line_active
              {| tooltip := Obj [("_active", Arr [Obj [("index", Num (Finite 3))];
                                                  Obj [("index", Num (Finite 7))]])];
                 chartArea := Obj [("left", Num (Finite 0)); ("right", Num (Finite 300));
                                   ("top", Num (Finite 10)); ("bottom", Num (Finite 200))];
                 scales_x := Some (fun v => v) |}
              [("_active", Arr [Obj [("index", Num (Finite 3))];
                                Obj [("index", Num (Finite 7))]])]
              (Obj [("index", Num (Finite 3))]) [Obj [("index", Num (Finite 7))]]
              (fun v => v) eq_refl eq_refl eq_refl eq_refl eq_refl)
    as (top & bottom & index & Ht & Hb & Hi & E).
  rewrite E. cbn in Ht, Hb, Hi.
  injection Ht as <-. injection Hb as <-. injection Hi as <-. reflexivity.
Defined.

(** X19: whenever the hook returns, the canvas is either untouched or has
    received exactly the eight calls of one stroke: the segment is vertical
    (both ends at the same [x]), runs from the chart area's [top] to its
    [bottom], and the context saved first is restored last. *)
Theorem hover_line_calls (chart : chartInstance) (calls : list canvasCall) :
  afterDatasetsDraw chart = Normal calls ->
  calls = [] \/
  exists x top bottom,
    Get (chartArea chart) (Name "top") = Normal top /\
    Get (chartArea chart) (Name "bottom") = Normal bottom /\
    calls = [ ctx_save;
              ctx_beginPath;
              ctx_moveTo x top;
              ctx_lineTo x bottom;
              ctx_lineWidth (Num (Finite 2));
              ctx_strokeStyle (Str "rgba(255, 255, 255, 0.5)");
              ctx_stroke;
              ctx_restore ].
Proof.
  unfold afterDatasetsDraw, andThen.
  destruct (Get (chartArea chart) (Name "left")) as [l |]; [| discriminate].
  destruct (Get (chartArea chart) (Name "right")) as [r |]; [| discriminate].
  destruct (Get (chartArea chart) (Name "top")) as [tp |]; [| discriminate].
  destruct (Get (chartArea chart) (Name "bottom")) as [b |]; [| discriminate].
  destruct (optionalGet (tooltip chart) (Name "_active")) as [a |]; [| discriminate].
  destruct (optionalGet a (Name "length")) as [len |]; [| discriminate].
  destruct (ToBoolean len).
  - destruct (Get (tooltip chart) (Name "_active")) as [pts |]; [| discriminate].
    destruct (Get pts (Index 0)) as [pt |]; [| discriminate].
    destruct (scales_x chart) as [f |]; [| discriminate].
    destruct (Get pt (Name "index")) as [idx |]; [| discriminate].
    intros E. injection E as <-. right. exists (f idx), tp, b. auto.
  - intros E. injection E as <-. left. reflexivity.
Qed.

Lemma hover_line_calls_witness :
  [ctx_save; ctx_beginPath;
   ctx_moveTo (Num (Finite 42)) (Num (Finite 10));
   ctx_lineTo (Num (Finite 42)) (Num (Finite 200));
   ctx_lineWidth (Num (Finite 2));
   ctx_strokeStyle (Str "rgba(255, 255, 255, 0.5)");
   ctx_stroke; ctx_restore] = [] \/
  exists x top bottom,
    Normal (Num (Finite 10)) = Normal top /\
    Normal (Num (Finite 200)) = Normal bottom /\
    [ctx_save; ctx_beginPath;
     ctx_moveTo (Num (Finite 42)) (Num (Finite 10));
     ctx_lineTo (Num (Finite 42)) (Num (Finite 200));
     ctx_lineWidth (Num (Finite 2));
     ctx_strokeStyle (Str "rgba(255, 255, 255, 0.5)");
     ctx_stroke; ctx_restore] =
    [ctx_save; ctx_beginPath; ctx_moveTo x top; ctx_lineTo x bottom;
     ctx_lineWidth (Num (Finite 2));
     ctx_strokeStyle (Str "rgba(255, 255, 255, 0.5)");
     ctx_stroke; ctx_restore].
Proof.
  apply (hover_line_calls
           {| tooltip := Obj [("_active", Str "x")];
              chartArea := Obj [("top", Num (Finite 10)); ("bottom", Num (Finite 200))];
              scales_x := Some (fun _ => Num (Finite 42)) |}).
  reflexivity.
Defined.


(* ================================================================= *)
(** ** Concrete runs *)

Lemma filterChange_calls_witness :
  snd (runEvents noTranslation idleState
         [Click "oneD" 1; Click "oneW" 2; Click "oneW" 3; AnimationComplete 5;
          Click "oneD" 4]) = ["Daily"; "Hourly"] /\
  adjacentDistinct
    (snd (runEvents noTranslation idleState
            [Click "oneD" 1; Click "oneW" 2; Click "oneW" 3; AnimationComplete 5;
             Click "oneD" 4])) = true.
Proof.
  split; [reflexivity |].
  apply (filterChange_calls noTranslation noProps 0
           [Click "oneD" 1; Click "oneW" 2; Click "oneW" 3; AnimationComplete 5;
            Click "oneD" 4]).
Defined.
